(** * RelSerializer: a shallow embedding of the plan serializer

    The embedding follows [com.dremio.exec.planner.logical.serialization.RelSerializer]
    (the serializer, its [SerializerContext] and its [Builder]).  Java references
    that may be [null] are [option]s, exceptions are the [Err] branch of
    [Result], mutation of the builder and of the Kryo instance is explicit
    state passing.  The classes the serializer delegates to but which are not
    part of that file (the injection mapping, the registry kept by Kryo, the
    per-category serializers and the wire form) are modelled from the
    specification; every such definition says so. *)

From Stdlib Require Import ZArith.
From Stdlib.Strings Require Import Byte.
From stdpp Require Import base gmap strings list fin_maps.

Open Scope Z_scope.
Open Scope string_scope.
Open Scope list_scope.

(** ** Runtime types *)

(** A [TypeId] is the fully qualified name of a class.  A [Class] is a
    runtime type together with its hierarchy: [csupers] lists every proper
    superclass and interface of the class. *)
Definition TypeId := string.

Record Class := mkClass { cname : TypeId; csupers : list TypeId }.

Global Instance Class_eq_dec : EqDecision Class.
Proof. solve_decision. Defined.

(** [base.isAssignableFrom(type)]: [type] is [base] or one of its subtypes. *)
Definition isAssignableFrom (base : TypeId) (type : Class) : bool :=
  bool_decide (base = cname type) || bool_decide (base ∈ csupers type).

Definition SqlOperator_class : TypeId := "org.apache.calcite.sql.SqlOperator".
Definition RelDataType_class : TypeId := "org.apache.calcite.rel.type.RelDataType".
Definition StoragePlugin_class : TypeId := "com.dremio.exec.store.StoragePlugin".
Definition Writable_class : TypeId := "org.apache.hadoop.io.Writable".
Definition RelOptCluster_class : TypeId := "org.apache.calcite.plan.RelOptCluster".
Definition CalciteCatalogReader_class : TypeId :=
  "org.apache.calcite.prepare.CalciteCatalogReader".
Definition StoragePluginRegistry_class : TypeId :=
  "com.dremio.exec.store.StoragePluginRegistry".
Definition RelOptTableImpl_class : TypeId := "org.apache.calcite.prepare.RelOptTableImpl".
Definition RelOptNamespaceTable_class : TypeId := "com.dremio.exec.store.RelOptNamespaceTable".
Definition TableMetadata_class : TypeId := "com.dremio.exec.store.TableMetadata".

(** The private envelope class of the serializer. *)
Definition SerializationWrapper_class : Class :=
  mkClass "com.dremio.exec.planner.logical.serialization.RelSerializer$SerializationWrapper" [].

(** ** Payload values *)

(** Modelled from the spec: a payload graph; the plan-node types are not
    part of the serializer's file.  Every object carries its runtime class;
    the constructors are the payload categories of the specification: plain
    objects with fields, values identified by a name (operator descriptors
    and plugin handles), data-type descriptors (kind, precision, scale and
    element types) and framework writables (their raw bytes).  Values are
    compared structurally. *)
Local Unset Elimination Schemes.
Inductive Value :=
| VPrim (z : Z)
| VObject (ty : Class) (fields : list Value)
| VNamed (ty : Class) (name : string)
| VDataType (ty : Class) (kind : string) (precision scale : Z) (elems : list Value)
| VWritable (ty : Class) (raw : list byte).
Local Set Elimination Schemes.

(** Induction over a payload graph, with the fields and element types of a
    node as sub-graphs. *)
Section Value_induction.
Variable P : Value -> Prop.
Hypothesis P_prim : ∀ z, P (VPrim z).
Hypothesis P_object : ∀ ty fields, Forall P fields → P (VObject ty fields).
Hypothesis P_named : ∀ ty name, P (VNamed ty name).
Hypothesis P_datatype :
  ∀ ty kind precision scale elems,
    Forall P elems → P (VDataType ty kind precision scale elems).
Hypothesis P_writable : ∀ ty raw, P (VWritable ty raw).

Fixpoint Value_ind (v : Value) : P v :=
  let children :=
    fix children (vs : list Value) : Forall P vs :=
      match vs with
      | [] => Forall_nil_2 P
      | v :: vs' => Forall_cons_2 P v vs' (Value_ind v) (children vs')
      end in
  match v with
  | VPrim z => P_prim z
  | VObject ty fields => P_object ty fields (children fields)
  | VNamed ty name => P_named ty name
  | VDataType ty kind precision scale elems =>
      P_datatype ty kind precision scale elems (children elems)
  | VWritable ty raw => P_writable ty raw
  end.
End Value_induction.

Definition classOf (v : Value) : option Class :=
  match v with
  | VPrim _ => None
  | VObject ty _ | VNamed ty _ | VDataType ty _ _ _ _ | VWritable ty _ => Some ty
  end.

(** ** Failures *)

Inductive Error :=
| NullPointerException (msg : string)
| IllegalArgumentException
| AmbiguousInjection (ty : TypeId)
| ResolutionError (what : string)
| StructuralDecodeError
| ClassCastException
| UnsupportedPayload.

Inductive Result (A : Type) :=
| OK (a : A)
| Err (e : Error).
Arguments OK {A} a.
Arguments Err {A} e.

(** Sequencing: the first failure aborts what follows ([x ← r; k]). *)
Global Instance Result_bind : MBind Result := λ A B k r,
  match r with
  | OK a => k a
  | Err e => Err e
  end.

Definition isOK {A} (r : Result A) : bool :=
  match r with
  | OK _ => true
  | Err _ => false
  end.

(** [Preconditions.checkNotNull(reference, message)]. *)
Definition checkNotNull {A} (reference : option A) (msg : string) : Result A :=
  match reference with
  | Some a => OK a
  | None => Err (NullPointerException msg)
  end.

(** [Preconditions.checkArgument(expression)]. *)
Definition checkArgument (expression : bool) : Result unit :=
  if expression then OK tt else Err IllegalArgumentException.

(** ** Injections *)

(** Modelled from the spec: an entry of the injection mapping, a TypeId
    with the instance to substitute; the class [Injection] is not part of
    the serializer's file. *)
Record Injection := mkInjection { inj_type : TypeId; inj_value : Value }.

(** [Injection.of(type, value)]. *)
Definition Injection_of (type : TypeId) (value : Value) : Injection :=
  mkInjection type value.

(** Modelled from the spec: the class [InjectionMapping] is not part of the
    serializer's file.  It is an immutable map from a TypeId to one
    instance. *)
Record InjectionMapping := mkMapping { instances : gmap TypeId Value }.

(** Modelled from the spec: [lookup(TypeId) -> Option<Instance>] of the
    injection mapping, pure and total. *)
Definition InjectionMapping_lookup (m : InjectionMapping) (ty : TypeId) : option Value :=
  instances m !! ty.

(** Modelled from the spec: the construction of the mapping, entry by
    entry; it fails at the first entry whose TypeId is already taken. *)
Fixpoint mapping_add_all (m : gmap TypeId Value) (l : list Injection)
  : Result (gmap TypeId Value) :=
  match l with
  | [] => OK m
  | i :: l' =>
      match m !! inj_type i with
      | Some _ => Err (AmbiguousInjection (inj_type i))
      | None => mapping_add_all (<[inj_type i := inj_value i]> m) l'
      end
  end.

(** Modelled from the spec: [InjectionMapping.of(injections)], the
    constructor of the mapping from the entries; it fails when two entries
    share a TypeId. *)
Definition InjectionMapping_of (injections : list Injection) : Result InjectionMapping :=
  m ← mapping_add_all ∅ injections; OK (mkMapping m).

(** ** Environment references *)

(** Modelled from the spec: the type factory of the plan-building
    environment; it rebuilds a data-type descriptor from its structural
    description, or reports that it cannot. *)
Definition TypeFactory := string -> Z -> Z -> list Value -> option Value.

(** Modelled from the spec: the three environment references.  Each is an
    object of the payload graph ([*_ref], what an injection substitutes);
    the environment supplies the type factory and the plugin registry
    resolves plugin handles by name. *)
Record RelOptCluster := mkCluster { cluster_ref : Value; getTypeFactory : TypeFactory }.
Record CalciteCatalogReader := mkCatalog { catalog_ref : Value }.
Record StoragePluginRegistry :=
  mkRegistry { registry_ref : Value; plugins : gmap string Value }.

Module SerializerContext.
Record t := mk {
  cluster : RelOptCluster;
  catalog : CalciteCatalogReader;
  registry : StoragePluginRegistry;
  outputBufferSize : Z
}.
End SerializerContext.

Definition getCluster := SerializerContext.cluster.
Definition getCatalog := SerializerContext.catalog.
Definition getRegistry := SerializerContext.registry.
Definition getOutputBufferSize := SerializerContext.outputBufferSize.

(** ** Strategies and the Kryo instance *)

(** The serializers [setup] hands to Kryo, each with the arguments its
    constructor receives apart from the Kryo instance itself.
    [LibrarySerializer] stands for a serializer installed by one of the
    [*.register(kryo)] helpers or present in the Kryo instance beforehand.
    Two strategies are the same when they are the same serializer class
    made from the same arguments. *)
Inductive Strategy :=
| SqlOperatorSerializer (type : Class)
| RelDataTypeSerializer (type : Class) (typeFactory : TypeFactory)
| StoragePluginSerializer (registry : StoragePluginRegistry)
| WritableSerializer
| InjectingSerializer (type : Class) (mapping : InjectionMapping)
| RelOptTableImplSerializer (catalog : CalciteCatalogReader)
| RelOptNamespaceTableSerializer (catalog : CalciteCatalogReader) (cluster : RelOptCluster)
| TableMetadataSerializer (catalog : CalciteCatalogReader)
| LibrarySerializer (name : string).

(** The instantiator [setup] installs: Kryo's default one, falling back to
    the constructor-bypassing [StdInstantiatorStrategy]. *)
Inductive FallbackInstantiator := StdInstantiatorStrategy.
Inductive InstantiatorStrategy :=
| DefaultInstantiatorStrategy (fallback : option FallbackInstantiator).

(** Modelled from the spec: the serializer registry kept by the Kryo
    instance.  [defaultSerializers] holds the special-cased types, matched
    by exact TypeId; [defaultSerializer] is the factory asked for every
    other type. *)
Record Kryo := mkKryo {
  warnUnregisteredClasses : bool;
  instantiatorStrategy : InstantiatorStrategy;
  defaultSerializer : Class -> Strategy;
  defaultSerializers : gmap TypeId Strategy
}.

(** What the classes outside the serializer's file supply, taken as
    parameters: the serializers installed by each of the four registration
    helpers, in the order the helper installs them; the fixed registry of
    known operators, by canonical name; and the serializer the Kryo instance
    keeps for a TypeId that already has one ([reregistered old new]) when it
    is given another, which the specification leaves open. *)
Class SerializerLibrary := {
  ImmutableCollectionSerializers : list (TypeId * Strategy);
  RelTraitDefSerializers : list (TypeId * Strategy);
  RelTraitSerializers : list (TypeId * Strategy);
  JavaSerializers : list (TypeId * Strategy);
  operators : gmap string Value;
  reregistered : Strategy -> Strategy -> Strategy
}.

(** The setters [setup] calls on the Kryo instance. *)
Definition setWarnUnregisteredClasses (warn : bool) (k : Kryo) : Kryo :=
  mkKryo warn (instantiatorStrategy k) (defaultSerializer k) (defaultSerializers k).

Definition setInstantiatorStrategy (s : InstantiatorStrategy) (k : Kryo) : Kryo :=
  mkKryo (warnUnregisteredClasses k) s (defaultSerializer k) (defaultSerializers k).

Definition setDefaultSerializer (factory : Class -> Strategy) (k : Kryo) : Kryo :=
  mkKryo (warnUnregisteredClasses k) (instantiatorStrategy k) factory (defaultSerializers k).

(** Modelled from the spec: the entry a TypeId has after it is given the
    serializer [s]: [s] itself when the TypeId had none, and what the Kryo
    instance keeps of the two otherwise. *)
Definition keepRegistered `{SerializerLibrary} (held : option Strategy) (s : Strategy)
  : option Strategy :=
  match held with
  | Some old => Some (reregistered old s)
  | None => Some s
  end.

(** Modelled from the spec: [addDefaultSerializer(type, serializer)]
    special-cases one exact TypeId; the entries of the other TypeIds stay
    as they are. *)
Definition addDefaultSerializer `{SerializerLibrary} (type : TypeId) (s : Strategy)
    (k : Kryo) : Kryo :=
  mkKryo (warnUnregisteredClasses k) (instantiatorStrategy k) (defaultSerializer k)
         (partial_alter (fun held => keepRegistered held s) type (defaultSerializers k)).

(** Modelled from the spec: a [*.register(kryo)] helper installs its
    serializers, in order, each for one exact TypeId. *)
Definition register `{SerializerLibrary} (entries : list (TypeId * Strategy)) (k : Kryo)
  : Kryo :=
  foldl (fun k e => addDefaultSerializer e.1 e.2 k) k entries.

(** Modelled from the spec: [Registry.resolve].  The special-cased types win;
    every other type goes to the default factory.  Resolution reads the
    Kryo instance and hands it back unchanged. *)
Definition resolve (k : Kryo) (type : Class) : Strategy * Kryo :=
  match defaultSerializers k !! cname type with
  | Some s => (s, k)
  | None => (defaultSerializer k type, k)
  end.

(** The strategy a resolution returns. *)
Definition strategyFor (k : Kryo) (type : Class) : Strategy := (resolve k type).1.

(** ** The serializer *)

Module RelSerializer.
Record t := mk {
  kryo : Kryo;
  mapping : InjectionMapping;
  context : SerializerContext.t
}.
End RelSerializer.

Definition getContext := RelSerializer.context.

(** The constructor of [RelSerializer]. *)
Definition newRelSerializer (kryo : option Kryo) (mapping : option InjectionMapping)
    (context : option SerializerContext.t) : Result RelSerializer.t :=
  k ← checkNotNull kryo "kryo is required";
  m ← checkNotNull mapping "mapping is required";
  c ← checkNotNull context "context is required";
  OK (RelSerializer.mk k m c).

(** The anonymous [SerializerFactory] of [setup]: [makeSerializer(kryo, type)].
    It closes over the serializer (its context and mapping) and over the
    plugin serializer created once by [setup]. *)
Definition makeSerializer (this : RelSerializer.t) (pluginSerializer : Strategy)
    (type : Class) : Strategy :=
  if isAssignableFrom SqlOperator_class type then
    SqlOperatorSerializer type
  else if isAssignableFrom RelDataType_class type then
    RelDataTypeSerializer type (getTypeFactory (getCluster (getContext this)))
  else if isAssignableFrom StoragePlugin_class type then
    pluginSerializer
  else if isAssignableFrom Writable_class type then
    WritableSerializer
  else
    InjectingSerializer type (RelSerializer.mapping this).

(** ** The serializer objects [makeSerializer] returns *)

(** A serializer object: which object it is and the strategy it is, that
    is, its class with the arguments it was made from.  [identity] counts
    the serializer objects in the order of their creation. *)
Record SerializerObject := mkObject { identity : nat; strategyOf : Strategy }.

(** The creation of a serializer object; [created] is the number of
    serializer objects made so far. *)
Definition newSerializer (s : Strategy) (created : nat) : SerializerObject * nat :=
  (mkObject created s, S created).

(** One call of [makeSerializer(kryo, type)], with the objects it makes:
    the plugin serializer is the one object [setup] made beforehand, every
    other branch makes an object of its own ([new], and the two [of]
    factories, which are taken to do the same). *)
Definition makeSerializerCall (this : RelSerializer.t) (pluginSerializer : SerializerObject)
    (type : Class) (created : nat) : SerializerObject * nat :=
  if isAssignableFrom SqlOperator_class type then
    newSerializer (SqlOperatorSerializer type) created
  else if isAssignableFrom RelDataType_class type then
    newSerializer
      (RelDataTypeSerializer type (getTypeFactory (getCluster (getContext this)))) created
  else if isAssignableFrom StoragePlugin_class type then
    (pluginSerializer, created)
  else if isAssignableFrom Writable_class type then
    newSerializer WritableSerializer created
  else
    newSerializer (InjectingSerializer type (RelSerializer.mapping this)) created.


(** ** The builder state *)

(** [MAX_BUFFER_SIZE = 2 << 15].  Buffer sizes are Java [int]s; they are
    only compared and passed to [Math.min], so nothing can wrap around. *)
Definition MAX_BUFFER_SIZE : Z := Z.shiftl 2 15.

Module Builder.
Record t := mk {
  injections : list Injection;
  kryo : Kryo;
  cluster : RelOptCluster;
  catalog : CalciteCatalogReader;
  registry : StoragePluginRegistry;
  outputBufferSize : Z
}.
End Builder.

(** ** The wire *)

(** Modelled from the spec: the binary form is private to the engine, so the
    stream is kept at the level of the items the specification names: the
    reference to a runtime type, the injected/structural tag, a name, a
    number, a length prefix and a raw byte. *)
Inductive Token :=
| TType (c : Class)
| TTag (t : nat)
| TName (s : string)
| TNum (z : Z)
| TLen (n : nat)
| TByte (b : byte).

Definition INJECTED : nat := 0.
Definition STRUCTURAL : nat := 1.

Section Engine.
Context `{SerializerLibrary}.

(** [RelSerializer.setup(kryo)]. *)
Definition setup (this : RelSerializer.t) (kryo : Kryo) : Kryo :=
  let kryo := setWarnUnregisteredClasses false kryo in
  let kryo :=
    setInstantiatorStrategy (DefaultInstantiatorStrategy (Some StdInstantiatorStrategy)) kryo in
  let pluginSerializer := StoragePluginSerializer (getRegistry (getContext this)) in
  let kryo := setDefaultSerializer (makeSerializer this pluginSerializer) kryo in
  let kryo := register ImmutableCollectionSerializers kryo in
  let kryo := register RelTraitDefSerializers kryo in
  let kryo := register RelTraitSerializers kryo in
  let kryo := register JavaSerializers kryo in
  let kryo :=
    addDefaultSerializer RelOptTableImpl_class
      (RelOptTableImplSerializer (getCatalog (getContext this))) kryo in
  let kryo :=
    addDefaultSerializer RelOptNamespaceTable_class
      (RelOptNamespaceTableSerializer (getCatalog (getContext this))
         (getCluster (getContext this))) kryo in
  addDefaultSerializer TableMetadata_class
    (TableMetadataSerializer (getCatalog (getContext this))) kryo.

(** ** The builder *)

(** [RelSerializer.newBuilder] and the constructor of [Builder]: the field
    initialisers run first, then the four null checks in order. *)
Definition newBuilder (kryo : option Kryo) (cluster : option RelOptCluster)
    (catalog : option CalciteCatalogReader) (registry : option StoragePluginRegistry)
  : Result Builder.t :=
  let injections := [] in
  let outputBufferSize := MAX_BUFFER_SIZE in
  k ← checkNotNull kryo "kryo is required";
  cl ← checkNotNull cluster "cluster is required";
  ca ← checkNotNull catalog "catalog is required";
  r ← checkNotNull registry "registry is required";
  OK (Builder.mk injections k cl ca r outputBufferSize).

(** [withInjection(injection)]: appends to the builder's own list. *)
Definition withInjection (b : Builder.t) (injection : Injection) : Builder.t :=
  Builder.mk (Builder.injections b ++ [injection]) (Builder.kryo b) (Builder.cluster b)
             (Builder.catalog b) (Builder.registry b) (Builder.outputBufferSize b).

(** [withInjection(type, value)]. *)
Definition withInjectionOf (b : Builder.t) (type : TypeId) (value : Value) : Builder.t :=
  withInjection b (Injection_of type value).

(** [setOutputBufferSize(outputBufferSize)]. *)
Definition setOutputBufferSize (b : Builder.t) (outputBufferSize : Z) : Result Builder.t :=
  _ ← checkArgument (outputBufferSize >? 0)%Z;
  OK (Builder.mk (Builder.injections b) (Builder.kryo b) (Builder.cluster b)
                 (Builder.catalog b) (Builder.registry b) outputBufferSize).

(** The three injections [build] adds: the cluster, catalog and registry
    objects the builder was constructed with, each under the TypeId of its
    environment class. *)
Definition environmentInjections (b : Builder.t) : list Injection :=
  [ Injection_of RelOptCluster_class (cluster_ref (Builder.cluster b));
    Injection_of CalciteCatalogReader_class (catalog_ref (Builder.catalog b));
    Injection_of StoragePluginRegistry_class (registry_ref (Builder.registry b)) ].

(** The first three statements of [build]: the builder whose list [build]
    hands to [InjectionMapping.of]. *)
Definition injectPassedInstances (b : Builder.t) : Builder.t :=
  let b := withInjectionOf b RelOptCluster_class (cluster_ref (Builder.cluster b)) in
  let b := withInjectionOf b CalciteCatalogReader_class (catalog_ref (Builder.catalog b)) in
  withInjectionOf b StoragePluginRegistry_class (registry_ref (Builder.registry b)).

(** [build()].  The builder is mutated (its list grows, its Kryo instance
    is set up), so the builder after the call is returned next to the
    outcome; an exception leaves the mutations made before it. *)
Definition build (b : Builder.t) : Builder.t * Result RelSerializer.t :=
  let b := injectPassedInstances b in
  match InjectionMapping_of (Builder.injections b) with
  | Err e => (b, Err e)
  | OK mapping =>
      let bufferSize := Z.min (Builder.outputBufferSize b) MAX_BUFFER_SIZE in
      let context :=
        SerializerContext.mk (Builder.cluster b) (Builder.catalog b) (Builder.registry b)
                             bufferSize in
      match newRelSerializer (Some (Builder.kryo b)) (Some mapping) (Some context) with
      | Err e => (b, Err e)
      | OK serializer =>
          let kryo := setup serializer (Builder.kryo b) in
          (Builder.mk (Builder.injections b) kryo (Builder.cluster b) (Builder.catalog b)
                      (Builder.registry b) (Builder.outputBufferSize b),
           OK (RelSerializer.mk kryo (RelSerializer.mapping serializer)
                                (RelSerializer.context serializer)))
      end
  end.

(** The context [build] constructs. *)
Definition builtContext (b : Builder.t) : SerializerContext.t :=
  SerializerContext.mk (Builder.cluster b) (Builder.catalog b) (Builder.registry b)
    (Z.min (Builder.outputBufferSize b) MAX_BUFFER_SIZE).

(** ** Encoding and decoding *)

(** Modelled from the spec: what the injecting fallback writes.  A type with
    an injection is written as the injected tag and nothing else; any other
    type as the structural tag followed by its structural form. *)
Definition writeInjecting (type : Class) (m : InjectionMapping)
    (structural : Result (list Token)) : Result (list Token) :=
  match InjectionMapping_lookup m (cname type) with
  | Some _ => OK [TTag INJECTED]
  | None => body ← structural; OK (TTag STRUCTURAL :: body)
  end.

(** Modelled from the spec: what a strategy writes for a value.  Operator
    descriptors and plugin handles are written as their name, a data-type
    descriptor as its structural description, a writable as its
    length-prefixed raw bytes.  A payload that does not fit its strategy, or
    a strategy whose form the specification leaves open, is
    [UnsupportedPayload]. *)
Definition writeWith (writeFields : list Value -> Result (list Token))
    (s : Strategy) (v : Value) : Result (list Token) :=
  match s, v with
  | InjectingSerializer type m, VObject _ fields =>
      writeInjecting type m (fs ← writeFields fields; OK (TLen (length fields) :: fs))
  | InjectingSerializer type m, _ => writeInjecting type m (Err UnsupportedPayload)
  | SqlOperatorSerializer _, VNamed _ name => OK [TName name]
  | StoragePluginSerializer _, VNamed _ name => OK [TName name]
  | RelDataTypeSerializer _ _, VDataType _ kind precision scale elems =>
      es ← writeFields elems;
      OK (TName kind :: TNum precision :: TNum scale :: TLen (length elems) :: es)
  | WritableSerializer, VWritable _ raw => OK (TLen (length raw) :: (TByte <$> raw))
  | _, _ => Err UnsupportedPayload
  end.

(** Modelled from the spec: encoding of one node.  A scalar is written as
    it is; an object as its runtime type followed by what the strategy
    resolved for that type writes, its fields and element types written the
    same way in turn. *)
Fixpoint writeClassAndObject (k : Kryo) (v : Value) {struct v} : Result (list Token) :=
  let writeAll :=
    fix writeAll (vs : list Value) : Result (list Token) :=
      match vs with
      | [] => OK []
      | v :: vs' =>
          a ← writeClassAndObject k v;
          b ← writeAll vs';
          OK (a ++ b)
      end in
  match v with
  | VPrim z => OK [TNum z]
  | VObject ty _ | VNamed ty _ | VDataType ty _ _ _ _ | VWritable ty _ =>
      body ← writeWith writeAll (strategyFor k ty) v;
      OK (TType ty :: body)
  end.

(** Modelled from the spec: reading the [n] raw bytes that follow a length
    prefix. *)
Fixpoint readBytes (n : nat) (ts : list Token) : Result (list byte * list Token) :=
  match n with
  | O => OK ([], ts)
  | S n' =>
      match ts with
      | TByte b :: ts' => '(bs, rest) ← readBytes n' ts'; OK (b :: bs, rest)
      | _ => Err StructuralDecodeError
      end
  end.

(** Modelled from the spec: what a strategy reads back for a node of type
    [ty].  An injected tag must find its instance in the mapping, a name
    must be known to the operator registry or to the plugin registry, a
    description must be accepted by the type factory; anything malformed,
    cut short or carrying an unknown tag is [StructuralDecodeError]. *)
Definition readWith (readFields : nat -> list Token -> Result (list Value * list Token))
    (s : Strategy) (ty : Class) (rest : list Token) : Result (Value * list Token) :=
  match s with
  | InjectingSerializer type m =>
      match rest with
      | TTag tag :: rest1 =>
          if bool_decide (tag = INJECTED) then
            match InjectionMapping_lookup m (cname type) with
            | Some instance => OK (instance, rest1)
            | None => Err (ResolutionError (cname type))
            end
          else if bool_decide (tag = STRUCTURAL) then
            match rest1 with
            | TLen n :: rest2 =>
                '(fields, rest3) ← readFields n rest2;
                OK (VObject ty fields, rest3)
            | _ => Err StructuralDecodeError
            end
          else Err StructuralDecodeError
      | _ => Err StructuralDecodeError
      end
  | SqlOperatorSerializer _ =>
      match rest with
      | TName name :: rest1 =>
          match operators !! name with
          | Some op => OK (op, rest1)
          | None => Err (ResolutionError name)
          end
      | _ => Err StructuralDecodeError
      end
  | RelDataTypeSerializer _ typeFactory =>
      match rest with
      | TName kind :: TNum precision :: TNum scale :: TLen n :: rest1 =>
          '(elems, rest2) ← readFields n rest1;
          match typeFactory kind precision scale elems with
          | Some t => OK (t, rest2)
          | None => Err (ResolutionError kind)
          end
      | _ => Err StructuralDecodeError
      end
  | StoragePluginSerializer registry =>
      match rest with
      | TName name :: rest1 =>
          match plugins registry !! name with
          | Some plugin => OK (plugin, rest1)
          | None => Err (ResolutionError name)
          end
      | _ => Err StructuralDecodeError
      end
  | WritableSerializer =>
      match rest with
      | TLen n :: rest1 =>
          '(raw, rest2) ← readBytes n rest1;
          OK (VWritable ty raw, rest2)
      | _ => Err StructuralDecodeError
      end
  | _ => Err UnsupportedPayload
  end.

(** Modelled from the spec: decoding of one node, the inverse walk of
    [writeClassAndObject].  [fuel] bounds the nesting depth. *)
Fixpoint readClassAndObject (k : Kryo) (fuel : nat) (ts : list Token) {struct fuel}
  : Result (Value * list Token) :=
  match fuel with
  | O => Err StructuralDecodeError
  | S fuel' =>
      let readAll :=
        fix readAll (n : nat) (ts : list Token) : Result (list Value * list Token) :=
          match n with
          | O => OK ([], ts)
          | S n' =>
              '(v, ts1) ← readClassAndObject k fuel' ts;
              '(vs, ts2) ← readAll n' ts1;
              OK (v :: vs, ts2)
          end in
      match ts with
      | TNum z :: rest => OK (VPrim z, rest)
      | TType ty :: rest => readWith readAll (strategyFor k ty) ty rest
      | _ => Err StructuralDecodeError
      end
  end.

(** Modelled from the spec: the walks of [writeClassAndObject] and of
    [readClassAndObject] over the fields of a node, by name. *)
Definition writeAll (k : Kryo) : list Value -> Result (list Token) :=
  fix writeAll (vs : list Value) : Result (list Token) :=
    match vs with
    | [] => OK []
    | v :: vs' =>
        a ← writeClassAndObject k v;
        b ← writeAll vs';
        OK (a ++ b)
    end.

Definition readAll (k : Kryo) (fuel : nat)
  : nat -> list Token -> Result (list Value * list Token) :=
  fix readAll (n : nat) (ts : list Token) : Result (list Value * list Token) :=
    match n with
    | O => OK ([], ts)
    | S n' =>
        '(v, ts1) ← readClassAndObject k fuel ts;
        '(vs, ts2) ← readAll n' ts1;
        OK (v :: vs, ts2)
    end.

(** Modelled from the spec: [kryo.writeObject(output, object)]; the type is
    known to the reader, so it is not written. *)
Definition writeObject (k : Kryo) (v : Value) : Result (list Token) :=
  ts ← writeClassAndObject k v;
  match ts with
  | TType _ :: body => OK body
  | _ => Err UnsupportedPayload
  end.

(** Modelled from the spec: [kryo.readObject(input, type)]; the reader
    supplies the type.  The fuel is the length of the input, which bounds
    the nesting depth of anything written in it. *)
Definition readObject (k : Kryo) (type : Class) (data : list Token)
  : Result (Value * list Token) :=
  readClassAndObject k (S (length data)) (TType type :: data).

(** [SerializationWrapper.of(value)]: the envelope, an object of the
    private wrapper class with the root value as its only field. *)
Definition SerializationWrapper_of (value : Value) : Value :=
  VObject SerializationWrapper_class [value].

(** [plan.getValue()], on whatever the reader produced: anything but an
    envelope is a failed cast. *)
Definition getValue (wrapper : Value) : Result Value :=
  match wrapper with
  | VObject ty [value] =>
      if bool_decide (ty = SerializationWrapper_class) then OK value
      else Err ClassCastException
  | _ => Err ClassCastException
  end.

(** The capacity [serialize] gives its output stream up front. *)
Definition outputStreamCapacity (this : RelSerializer.t) : Z :=
  getOutputBufferSize (getContext this).

(** [serialize(plan)]: the envelope of the plan, written without its
    type. *)
Definition serialize (this : RelSerializer.t) (plan : Value) : Result (list Token) :=
  writeObject (RelSerializer.kryo this) (SerializationWrapper_of plan).

(** [deserialize(data)]: the envelope is read back and unwrapped; what
    follows it in the input is ignored. *)
Definition deserialize (this : RelSerializer.t) (data : list Token) : Result Value :=
  '(plan, _) ← readObject (RelSerializer.kryo this) SerializationWrapper_class data;
  getValue plan.

(** ** The specification's reading of dispatch *)

(** The ordered category predicates of the specification, each with the
    strategy of its category: operator descriptor, data-type descriptor,
    plugin handle, framework writable. *)
Definition categoryPredicates (this : RelSerializer.t) (pluginSerializer : Strategy)
  : list ((Class -> bool) * (Class -> Strategy)) :=
  [ (isAssignableFrom SqlOperator_class, SqlOperatorSerializer);
    (isAssignableFrom RelDataType_class,
      fun type => RelDataTypeSerializer type (getTypeFactory (getCluster (getContext this))));
    (isAssignableFrom StoragePlugin_class, fun _ => pluginSerializer);
    (isAssignableFrom Writable_class, fun _ => WritableSerializer) ].

(** Walking an ordered list of predicates: the first match wins, otherwise
    the fallback applies. *)
Fixpoint firstMatch (predicates : list ((Class -> bool) * (Class -> Strategy)))
    (fallback : Class -> Strategy) (type : Class) : Strategy :=
  match predicates with
  | [] => fallback type
  | (applies, strategy) :: rest =>
      if applies type then strategy type else firstMatch rest fallback type
  end.

(** Every special-cased type with its strategy, in the order [setup]
    registers them. *)
Definition specialCases (this : RelSerializer.t) : list (TypeId * Strategy) :=
  (ImmutableCollectionSerializers ++ RelTraitDefSerializers ++ RelTraitSerializers
     ++ JavaSerializers
     ++ [ (RelOptTableImpl_class, RelOptTableImplSerializer (getCatalog (getContext this)));
          (RelOptNamespaceTable_class,
            RelOptNamespaceTableSerializer (getCatalog (getContext this))
              (getCluster (getContext this)));
          (TableMetadata_class, TableMetadataSerializer (getCatalog (getContext this))) ]).

(** The serializers registered for a TypeId among [entries], in the order
    of their registration. *)
Definition registrationsFor (entries : list (TypeId * Strategy)) (type : TypeId)
  : list Strategy :=
  (filter (fun e => e.1 = type) entries).*2.

(** The entries of the four registration helpers, in the order [setup]
    calls them. *)
Definition helperEntries : list (TypeId * Strategy) :=
  ImmutableCollectionSerializers ++ RelTraitDefSerializers ++ RelTraitSerializers
    ++ JavaSerializers.

(** ** The specification's reading of a round trip *)

(** The instance the injecting fallback substitutes for a value of this
    type, if the type resolves to the fallback and has an injection. *)
Definition injectionFor (k : Kryo) (type : Class) : option Value :=
  match strategyFor k type with
  | InjectingSerializer t m => InjectionMapping_lookup m (cname t)
  | _ => None
  end.

(** [G] with every subtree of an injected type replaced by the instance
    the mapping holds; everything else is kept as it is. *)
Fixpoint withInjections (k : Kryo) (v : Value) {struct v} : Value :=
  match v with
  | VPrim z => VPrim z
  | VObject ty fields =>
      match injectionFor k ty with
      | Some instance => instance
      | None => VObject ty (withInjections k <$> fields)
      end
  | VNamed ty name =>
      match injectionFor k ty with
      | Some instance => instance
      | None => VNamed ty name
      end
  | VDataType ty kind precision scale elems =>
      match injectionFor k ty with
      | Some instance => instance
      | None => VDataType ty kind precision scale (withInjections k <$> elems)
      end
  | VWritable ty raw =>
      match injectionFor k ty with
      | Some instance => instance
      | None => VWritable ty raw
      end
  end.

(** A value fits the strategy its type resolves to: a value of an injected
    type; a plain object of an uncategorised type whose fields are
    acceptable; an operator or a plugin handle known by its name to the
    registry that resolves it; a data-type descriptor the type factory
    rebuilds from its description; a writable. *)
Definition fitsStrategy (k : Kryo) (allOk : list Value -> Prop) (s : Strategy) (v : Value)
  : Prop :=
  match s, v with
  | InjectingSerializer t m, VObject _ fields =>
      match InjectionMapping_lookup m (cname t) with
      | Some _ => True
      | None => allOk fields
      end
  | InjectingSerializer t m, _ => is_Some (InjectionMapping_lookup m (cname t))
  | SqlOperatorSerializer _, VNamed _ name => operators !! name = Some v
  | StoragePluginSerializer registry, VNamed _ name => plugins registry !! name = Some v
  | RelDataTypeSerializer _ typeFactory, VDataType ty kind precision scale elems =>
      allOk elems
      ∧ typeFactory kind precision scale (withInjections k <$> elems)
        = Some (VDataType ty kind precision scale (withInjections k <$> elems))
  | WritableSerializer, VWritable _ _ => True
  | _, _ => False
  end.

(** The payload graphs of the round-trip property: scalars, and objects
    that fit their strategy all the way down. *)
Fixpoint payload_ok (k : Kryo) (v : Value) {struct v} : Prop :=
  let allOk :=
    fix allOk (vs : list Value) : Prop :=
      match vs with
      | [] => True
      | v :: vs' => payload_ok k v ∧ allOk vs'
      end in
  match v with
  | VPrim _ => True
  | VObject ty _ | VNamed ty _ | VDataType ty _ _ _ _ | VWritable ty _ =>
      fitsStrategy k allOk (strategyFor k ty) v
  end.

(** Every subtree of an injected type is the very instance the mapping
    holds for that type. *)
Fixpoint instancesHeld (k : Kryo) (v : Value) {struct v} : Prop :=
  let all_held :=
    fix all_held (vs : list Value) : Prop :=
      match vs with
      | [] => True
      | v :: vs' => instancesHeld k v ∧ all_held vs'
      end in
  match v with
  | VPrim _ => True
  | VObject ty fields =>
      match injectionFor k ty with
      | Some instance => v = instance
      | None => all_held fields
      end
  | VDataType ty _ _ _ elems =>
      match injectionFor k ty with
      | Some instance => v = instance
      | None => all_held elems
      end
  | VNamed ty _ | VWritable ty _ =>
      match injectionFor k ty with
      | Some instance => v = instance
      | None => True
      end
  end.

(** The envelope class is private to the serializer: nothing is registered
    or injected for it, so the envelope is written field by field. *)
Definition envelopePrivate (this : RelSerializer.t) : Prop :=
  ∃ m, strategyFor (RelSerializer.kryo this) SerializationWrapper_class
       = InjectingSerializer SerializationWrapper_class m
       ∧ InjectionMapping_lookup m (cname SerializationWrapper_class) = None.

(** ** The specification's reading of a decode-side mapping *)

Definition isInjecting (s : Strategy) : bool :=
  match s with
  | InjectingSerializer _ _ => true
  | _ => false
  end.

(** The decoding engine [kd] dispatches as the encoding engine [ke] does and
    holds every instance [ke] injects, except for the TypeIds in [D], for
    which it holds none: its mapping is a superset of the encoder's for
    every injected type outside [D]. *)
Definition decodesWithout (ke kd : Kryo) (D : gset TypeId) : Prop :=
  ∀ ty,
    match strategyFor ke ty with
    | InjectingSerializer t m =>
        ∃ m', strategyFor kd ty = InjectingSerializer t m'
              ∧ ∀ instance,
                  InjectionMapping_lookup m (cname t) = Some instance →
                  InjectionMapping_lookup m' (cname t)
                  = if bool_decide (cname t ∈ D) then None else Some instance
    | s => strategyFor kd ty = s
    end.

(** The TypeId in [D] that a strategy writes first with the injected tag,
    for a value or within its fields. *)
Definition missingWith (D : gset TypeId) (inFields : list Value -> option TypeId)
    (s : Strategy) (v : Value) : option TypeId :=
  match s, v with
  | InjectingSerializer t m, _ =>
      match InjectionMapping_lookup m (cname t) with
      | Some _ => if bool_decide (cname t ∈ D) then Some (cname t) else None
      | None =>
          match v with
          | VObject _ fields => inFields fields
          | _ => None
          end
      end
  | RelDataTypeSerializer _ _, VDataType _ _ _ _ elems => inFields elems
  | _, _ => None
  end.

(** The first TypeId of [D], in the order of the stream, that the encoding
    of [v] writes with the injected tag. *)
Fixpoint firstMissing (k : Kryo) (D : gset TypeId) (v : Value) {struct v} : option TypeId :=
  let inFields :=
    fix inFields (vs : list Value) : option TypeId :=
      match vs with
      | [] => None
      | v :: vs' =>
          match firstMissing k D v with
          | Some X => Some X
          | None => inFields vs'
          end
      end in
  match v with
  | VPrim _ => None
  | VObject ty _ | VNamed ty _ | VDataType ty _ _ _ _ | VWritable ty _ =>
      missingWith D inFields (strategyFor k ty) v
  end.

Definition firstMissingIn (k : Kryo) (D : gset TypeId) : list Value -> option TypeId :=
  fix inFields (vs : list Value) : option TypeId :=
    match vs with
    | [] => None
    | v :: vs' =>
        match firstMissing k D v with
        | Some X => Some X
        | None => inFields vs'
        end
    end.

(** What reading back a node means on the stream: the node is written by
    [ke], and [kd] reading what was written, with anything after it and fuel
    for at least its length, stops with the resolution error at the first
    injected type it holds nothing for, or else gives the node with its
    injections and leaves what came after. *)
Definition readsBack (ke kd : Kryo) (D : gset TypeId) (v : Value) : Prop :=
  ∃ ts, writeClassAndObject ke v = OK ts
        ∧ ∀ fuel rest, (length ts ≤ fuel)%nat →
            readClassAndObject kd fuel (ts ++ rest)
            = match firstMissing ke D v with
              | Some X => Err (ResolutionError X)
              | None => OK (withInjections ke v, rest)
              end.

(** The round trip of a node on one engine. *)
Definition roundTrips (k : Kryo) (v : Value) : Prop :=
  ∃ ts, writeClassAndObject k v = OK ts
        ∧ ∀ fuel rest, (length ts ≤ fuel)%nat →
            readClassAndObject k fuel (ts ++ rest) = OK (withInjections k v, rest).

(** ** Sequences of builder calls *)

(** One call on a builder, from the builder before it to the builder after
    it: [withInjection], a [setOutputBufferSize] that returns (one that
    throws leaves the builder as it was), or [build], whatever its
    outcome. *)
Inductive builderCall : Builder.t -> Builder.t -> Prop :=
| call_withInjection (b : Builder.t) (injection : Injection) :
    builderCall b (withInjection b injection)
| call_setOutputBufferSize (b b' : Builder.t) (n : Z) :
    setOutputBufferSize b n = OK b' → builderCall b b'
| call_build (b : Builder.t) :
    builderCall b (build b).1.

(** The builder after [n] calls of [build] in a row. *)
Definition buildTimes (n : nat) (b : Builder.t) : Builder.t :=
  Nat.iter n (fun b => (build b).1) b.

(** ** The hierarchy and the order of the categories *)

(** [sub] is a proper subtype of [super]: [super] is among its supertypes,
    and so is every supertype of [super]. *)
Definition subtypeOf (sub super : Class) : Prop :=
  cname super ∈ csupers sub ∧ csupers super ⊆ csupers sub.

(** The place of a strategy in the order [makeSerializer] tests the
    categories in; the fallback and every other serializer come last. *)
Definition priority (s : Strategy) : nat :=
  match s with
  | SqlOperatorSerializer _ => 0
  | RelDataTypeSerializer _ _ => 1
  | StoragePluginSerializer _ => 2
  | WritableSerializer => 3
  | _ => 4
  end.

End Engine.

(** ** A concrete engine *)

(** The scenario of the specification: an engine built with environment
    [E1], catalog [C1] and plugin registry [R1]; the payload is a plan node
    that references [E1] and holds a DECIMAL(10, 2) type. *)
Module Scenario.

(** No TypeId is registered twice in this library, nor by [setup] on top of
    it, so [reregistered] is never asked. *)
Definition library : SerializerLibrary := {|
  ImmutableCollectionSerializers :=
    [("com.google.common.collect.ImmutableList", LibrarySerializer "ImmutableListSerializer")];
  RelTraitDefSerializers :=
    [("org.apache.calcite.plan.ConventionTraitDef", LibrarySerializer "RelTraitDefSerializer")];
  RelTraitSerializers := [];
  JavaSerializers := [];
  operators :=
    {[ "+" := VNamed (mkClass "org.apache.calcite.sql.SqlBinaryOperator" [SqlOperator_class])
                     "+" ]};
  reregistered := fun old new => new
|}.

Definition E1 : Value := VObject (mkClass RelOptCluster_class []) [VPrim 1].
Definition C1 : Value := VObject (mkClass CalciteCatalogReader_class []) [VPrim 2].
Definition R1 : Value := VObject (mkClass StoragePluginRegistry_class []) [VPrim 3].

Definition BasicSqlType : Class :=
  mkClass "org.apache.calcite.sql.type.BasicSqlType" [RelDataType_class].

Definition typeFactory : TypeFactory :=
  fun kind precision scale elems => Some (VDataType BasicSqlType kind precision scale elems).

Definition cluster : RelOptCluster := mkCluster E1 typeFactory.
Definition catalog : CalciteCatalogReader := mkCatalog C1.
Definition registry : StoragePluginRegistry := mkRegistry R1 ∅.

(** A Kryo instance as the caller hands it over: nothing special-cased
    yet, its own field serializer as the default. *)
Definition kryo : Kryo :=
  mkKryo true (DefaultInstantiatorStrategy None)
         (fun _ => LibrarySerializer "FieldSerializer") ∅.

Definition builder : Builder.t :=
  Builder.mk [] kryo cluster catalog registry MAX_BUFFER_SIZE.

(** The serializer before [setup] ran, as [build] constructs it. *)
Definition fresh : RelSerializer.t :=
  RelSerializer.mk kryo (mkMapping ∅) (builtContext builder).

Definition engine : RelSerializer.t :=
  match (build (H := library) builder).2 with
  | OK e => e
  | Err _ => fresh
  end.

(** A caller-supplied injection, and the engine built with it. *)
Definition Session : Class := mkClass "com.dremio.Session" [].
Definition session : Value := VObject Session [VPrim 42].

Definition builderWithSession : Builder.t :=
  withInjectionOf builder (cname Session) session.

Definition engineWithSession : RelSerializer.t :=
  match (build (H := library) builderWithSession).2 with
  | OK e => e
  | Err _ => fresh
  end.

Definition PlanNode : Class := mkClass "com.dremio.exec.planner.logical.ScanRel" [].

Definition plan : Value :=
  VObject PlanNode [E1; VDataType BasicSqlType "DECIMAL" 10 2 []; VPrim 7].

(** Another object of the environment class, and a plan that references
    it instead of [E1]; a plan that holds the caller's session. *)
Definition E2 : Value := VObject (mkClass RelOptCluster_class []) [VPrim 4].

Definition planWithForeignCluster : Value := VObject PlanNode [E2; VPrim 7].

Definition planWithSession : Value := VObject PlanNode [VPrim 1; session; E1].

(** A caller who injects a cluster of their own, and one who injects the
    same TypeId twice. *)

Definition builderWithCluster : Builder.t :=
  withInjectionOf builder RelOptCluster_class E2.

Definition builderWithDuplicate : Builder.t :=
  withInjectionOf builderWithSession (cname Session) (VObject Session [VPrim 43]).

Definition WritableOperator : Class :=
  mkClass "com.dremio.WritableOperator" [Writable_class; SqlOperator_class].

(** An operator class and a proper subtype of it. *)
Definition SqlBinaryOperator : Class :=
  mkClass "org.apache.calcite.sql.SqlBinaryOperator" [SqlOperator_class].
Definition SqlMonotonicBinaryOperator : Class :=
  mkClass "org.apache.calcite.sql.fun.SqlMonotonicBinaryOperator"
          ["org.apache.calcite.sql.SqlBinaryOperator"; SqlOperator_class].

(** The builder with the session injected and a buffer of 4096. *)
Definition builderWithSessionAndSize : Builder.t :=
  Builder.mk [Injection_of (cname Session) session] kryo cluster catalog registry 4096.

End Scenario.

(** * Properties *)

Section Properties.
Context `{SerializerLibrary}.

(** ** Builder construction *)

(** C7: constructing a builder with an absent environment, catalog resolver
    or plugin registry fails at once with a precondition violation; no
    builder exists on which another operation could run. *)
Theorem newBuilder_requires_environment
    (kryo : option Kryo) (cluster : option RelOptCluster)
    (catalog : option CalciteCatalogReader) (registry : option StoragePluginRegistry) :
  cluster = None ∨ catalog = None ∨ registry = None →
  ∃ msg, newBuilder kryo cluster catalog registry = Err (NullPointerException msg).
Proof.
  intros Habsent. unfold newBuilder.
  destruct kryo as [k|]; [|by eexists].
  destruct cluster as [cl|]; [|by eexists].
  destruct catalog as [ca|]; [|by eexists].
  destruct registry as [r|]; [|by eexists].
  destruct Habsent as [?|[?|?]]; discriminate.
Qed.

(** With all four references present the constructor succeeds, with no
    injections yet and the buffer size at its cap. *)
Lemma newBuilder_present (k : Kryo) (cl : RelOptCluster) (ca : CalciteCatalogReader)
    (r : StoragePluginRegistry) :
  newBuilder (Some k) (Some cl) (Some ca) (Some r)
  = OK (Builder.mk [] k cl ca r MAX_BUFFER_SIZE).
Proof. reflexivity. Qed.

(** ** The injection mapping *)

Lemma mapping_add_all_app (m : gmap TypeId Value) (l l' : list Injection) :
  mapping_add_all m (l ++ l')
  = match mapping_add_all m l with
    | OK m' => mapping_add_all m' l'
    | Err e => Err e
    end.
Proof.
  revert m. induction l as [|i l IH]; intros m; simpl; [done|].
  destruct (m !! inj_type i); [done|]. apply IH.
Qed.

(** A successful construction saw no TypeId twice and holds every entry. *)
Lemma mapping_add_all_OK (l : list Injection) (m m' : gmap TypeId Value) :
  mapping_add_all m l = OK m' →
  NoDup (inj_type <$> l)
  ∧ (∀ i, i ∈ l → m !! inj_type i = None ∧ m' !! inj_type i = Some (inj_value i))
  ∧ (∀ t, t ∉ inj_type <$> l → m' !! t = m !! t).
Proof.
  revert m. induction l as [|i l IH]; intros m; simpl.
  - intros [= <-]. split; [constructor|]. split; [|done].
    intros i Hi. by apply elem_of_nil in Hi.
  - destruct (m !! inj_type i) eqn:Hfree; [done|]. intros Hrest.
    destruct (IH _ Hrest) as (Hnodup & Hin & Hout).
    assert (Hfresh : inj_type i ∉ inj_type <$> l).
    { intros (j & Heq & Hj)%list_elem_of_fmap.
      destruct (Hin j Hj) as [Hnone _]. rewrite <- Heq in Hnone.
      by rewrite lookup_insert_eq in Hnone. }
    split; [by constructor|]. split.
    + intros j [->|Hj]%elem_of_cons.
      * split; [done|]. rewrite (Hout _ Hfresh). apply lookup_insert_eq.
      * destruct (Hin j Hj) as [Hnone Hsome]. split; [|done].
        destruct (decide (inj_type i = inj_type j)) as [Heq|Hne].
        -- rewrite Heq in Hnone. by rewrite lookup_insert_eq in Hnone.
        -- by rewrite lookup_insert_ne in Hnone.
    + intros t Ht. apply not_elem_of_cons in Ht as [Hne Ht].
      rewrite (Hout _ Ht). by apply lookup_insert_ne.
Qed.

(** Distinct TypeIds, none of them taken: the construction succeeds. *)
Lemma mapping_add_all_NoDup (l : list Injection) (m : gmap TypeId Value) :
  NoDup (inj_type <$> l) →
  (∀ i, i ∈ l → m !! inj_type i = None) →
  ∃ m', mapping_add_all m l = OK m'.
Proof.
  revert m. induction l as [|i l IH]; intros m Hnodup Hfree; simpl; [by eexists|].
  rewrite fmap_cons in Hnodup. apply NoDup_cons in Hnodup as [Hfresh Hnodup].
  rewrite (Hfree i) by apply list_elem_of_here.
  apply IH; [done|]. intros j Hj.
  rewrite lookup_insert_ne.
  - apply Hfree. by apply list_elem_of_further.
  - intros Heq. apply Hfresh. rewrite Heq. by apply list_elem_of_fmap_2.
Qed.

(** The only failure of the construction is the ambiguous injection. *)
Lemma mapping_add_all_Err (l : list Injection) (m : gmap TypeId Value) (e : Error) :
  mapping_add_all m l = Err e →
  ∃ t, e = AmbiguousInjection t ∧ t ∈ inj_type <$> l.
Proof.
  revert m. induction l as [|i l IH]; intros m; simpl; [done|].
  destruct (m !! inj_type i).
  - intros [= <-]. eexists. split; [done|]. apply list_elem_of_here.
  - intros (t & -> & Ht)%IH. exists t. split; [done|].
    by apply list_elem_of_further.
Qed.

Lemma InjectionMapping_of_OK (l : list Injection) (m : InjectionMapping) :
  InjectionMapping_of l = OK m →
  NoDup (inj_type <$> l)
  ∧ (∀ i, i ∈ l → InjectionMapping_lookup m (inj_type i) = Some (inj_value i))
  ∧ (∀ t, t ∉ inj_type <$> l → InjectionMapping_lookup m t = None).
Proof.
  unfold InjectionMapping_of, InjectionMapping_lookup, mbind, Result_bind.
  destruct (mapping_add_all ∅ l) as [g|] eqn:Hadd; [|done]. intros [= <-]. simpl.
  destruct (mapping_add_all_OK _ _ _ Hadd) as (Hnodup & Hin & Hout).
  split; [done|]. split.
  - intros i Hi. by destruct (Hin i Hi).
  - intros t Ht. by rewrite (Hout t Ht).
Qed.

Lemma InjectionMapping_of_NoDup (l : list Injection) :
  NoDup (inj_type <$> l) → ∃ m, InjectionMapping_of l = OK m.
Proof.
  intros Hnodup. unfold InjectionMapping_of, mbind, Result_bind.
  destruct (mapping_add_all_NoDup l ∅ Hnodup) as [g ->]; [done|by eexists].
Qed.

Lemma InjectionMapping_of_ambiguous (l : list Injection) :
  ¬ NoDup (inj_type <$> l) →
  ∃ t, InjectionMapping_of l = Err (AmbiguousInjection t) ∧ t ∈ inj_type <$> l.
Proof.
  intros Hdup. unfold InjectionMapping_of, mbind, Result_bind.
  destruct (mapping_add_all ∅ l) as [g|e] eqn:Hadd.
  - by destruct Hdup, (mapping_add_all_OK _ _ _ Hadd).
  - destruct (mapping_add_all_Err _ _ _ Hadd) as (t & -> & Ht). by exists t.
Qed.

(** ** What [build] does to the builder and what it returns *)

Lemma injectPassedInstances_injections (b : Builder.t) :
  Builder.injections (injectPassedInstances b)
  = Builder.injections b ++ environmentInjections b.
Proof.
  unfold injectPassedInstances, withInjectionOf, withInjection, environmentInjections.
  simpl. by rewrite <- !app_assoc.
Qed.

Lemma injectPassedInstances_outputBufferSize (b : Builder.t) :
  Builder.outputBufferSize (injectPassedInstances b) = Builder.outputBufferSize b.
Proof. reflexivity. Qed.

Lemma build_injections (b : Builder.t) :
  Builder.injections (build b).1
  = Builder.injections b ++ environmentInjections b.
Proof.
  rewrite <- injectPassedInstances_injections. unfold build.
  destruct (InjectionMapping_of _); [|done].
  by destruct (newRelSerializer _ _ _).
Qed.

Lemma build_OK (b : Builder.t) (e : RelSerializer.t) :
  (build b).2 = OK e ↔
  ∃ m, InjectionMapping_of (Builder.injections b ++ environmentInjections b) = OK m
       ∧ e = RelSerializer.mk
               (setup (RelSerializer.mk (Builder.kryo b) m (builtContext b)) (Builder.kryo b))
               m (builtContext b).
Proof.
  rewrite <- injectPassedInstances_injections. unfold build.
  destruct (InjectionMapping_of _) as [m|err]; simpl.
  - split.
    + intros [= <-]. by exists m.
    + by intros (m' & [= <-] & ->).
  - split; [done|]. by intros (m' & ? & _).
Qed.

Lemma build_Err (b : Builder.t) (err : Error) :
  (build b).2 = Err err ↔
  InjectionMapping_of (Builder.injections b ++ environmentInjections b) = Err err.
Proof.
  rewrite <- injectPassedInstances_injections. unfold build.
  destruct (InjectionMapping_of _) as [m|err']; simpl.
  - split; discriminate.
  - split; by intros [= ->].
Qed.

Lemma environment_TypeIds_distinct (b : Builder.t) :
  NoDup (inj_type <$> environmentInjections b).
Proof. compute_done. Qed.

(** [build] succeeds exactly when the caller's injections are for distinct
    TypeIds, none of them one of the three environment classes. *)
Lemma build_succeeds_iff (b : Builder.t) :
  isOK (build b).2 = true ↔
  NoDup (inj_type <$> Builder.injections b)
  ∧ ∀ i, i ∈ Builder.injections b →
         inj_type i ∉ [RelOptCluster_class; CalciteCatalogReader_class;
                       StoragePluginRegistry_class].
Proof.
  assert (Hlist :
    NoDup (inj_type <$> (Builder.injections b ++ environmentInjections b)) ↔
    NoDup (inj_type <$> Builder.injections b)
    ∧ ∀ i, i ∈ Builder.injections b →
           inj_type i ∉ [RelOptCluster_class; CalciteCatalogReader_class;
                         StoragePluginRegistry_class]).
  { rewrite fmap_app, NoDup_app. split.
    - intros (Hcaller & Hdisj & _). split; [done|].
      intros i Hi. apply Hdisj. by apply list_elem_of_fmap_2.
    - intros (Hcaller & Hdisj). split; [done|]. split.
      + intros t (i & -> & Hi)%list_elem_of_fmap. by apply Hdisj.
      + apply environment_TypeIds_distinct. }
  rewrite <- Hlist. destruct (build b).2 as [e|err] eqn:Hbuild; simpl.
  - apply build_OK in Hbuild as (m & Hof & _).
    split; [intros _|done]. by destruct (InjectionMapping_of_OK _ _ Hof).
  - apply build_Err in Hbuild. split; [done|].
    intros [m Hm]%InjectionMapping_of_NoDup. congruence.
Qed.

(** ** Ambiguous injections *)

(** C2: when two of the entries handed to the builder share a TypeId, the
    construction of the injection mapping fails with the ambiguous-injection
    error, and [build] fails with it: no serializer is returned, so neither
    entry is kept in place of the other and nothing can be serialized or
    deserialized. *)
Theorem build_rejects_shared_TypeId (b : Builder.t) (i j : nat) (x y : Injection) :
  i ≠ j →
  Builder.injections b !! i = Some x →
  Builder.injections b !! j = Some y →
  inj_type x = inj_type y →
  ∃ t, InjectionMapping_of (Builder.injections b) = Err (AmbiguousInjection t)
       ∧ (build b).2 = Err (AmbiguousInjection t).
Proof.
  intros Hij Hx Hy Hshared.
  assert (Hdup : ¬ NoDup (inj_type <$> Builder.injections b)).
  { intros Hnodup. apply Hij. eapply NoDup_lookup; [exact Hnodup| |].
    - rewrite list_lookup_fmap, Hx. reflexivity.
    - rewrite list_lookup_fmap, Hy. simpl. by rewrite Hshared. }
  destruct (InjectionMapping_of_ambiguous _ Hdup) as (t & Hof & _).
  exists t. split; [done|]. apply build_Err.
  revert Hof. unfold InjectionMapping_of, mbind, Result_bind.
  rewrite mapping_add_all_app.
  by destruct (mapping_add_all ∅ (Builder.injections b)).
Qed.

(** C6: [build] hands to the injection mapping the caller's injections
    followed by the three environment injections, bound to the instances the
    builder was constructed with; a serializer it returns holds every one of
    them; it returns one whenever the TypeIds are distinct; and a caller's
    injection for one of the three environment TypeIds makes it fail with
    the ambiguous-injection error. *)
Theorem build_injects_environment (b : Builder.t) :
  Builder.injections (build b).1 = Builder.injections b ++ environmentInjections b
  ∧ environmentInjections b
    = [ mkInjection RelOptCluster_class (cluster_ref (Builder.cluster b));
        mkInjection CalciteCatalogReader_class (catalog_ref (Builder.catalog b));
        mkInjection StoragePluginRegistry_class (registry_ref (Builder.registry b)) ]
  ∧ (∀ e i, (build b).2 = OK e →
            i ∈ Builder.injections b ++ environmentInjections b →
            InjectionMapping_lookup (RelSerializer.mapping e) (inj_type i)
            = Some (inj_value i))
  ∧ (NoDup (inj_type <$> Builder.injections b) →
     (∀ i, i ∈ Builder.injections b →
           inj_type i ∉ [RelOptCluster_class; CalciteCatalogReader_class;
                         StoragePluginRegistry_class]) →
     ∃ e, (build b).2 = OK e)
  ∧ (∀ i, i ∈ Builder.injections b →
          inj_type i ∈ [RelOptCluster_class; CalciteCatalogReader_class;
                        StoragePluginRegistry_class] →
          ∃ t, (build b).2 = Err (AmbiguousInjection t)).
Proof.
  split; [apply build_injections|]. split; [done|]. split; [|split].
  - intros e i (m & Hof & ->)%build_OK Hi. simpl.
    destruct (InjectionMapping_of_OK _ _ Hof) as (_ & Hin & _). by apply Hin.
  - intros Hnodup Hdisj.
    destruct (build b).2 as [e|err] eqn:Hbuild; [by exists e|].
    assert (Hok : isOK (build b).2 = true) by by apply build_succeeds_iff.
    by rewrite Hbuild in Hok.
  - intros i Hi Henv.
    destruct (build b).2 as [e|err] eqn:Hbuild.
    + assert (Hok : isOK (build b).2 = true) by by rewrite Hbuild.
      apply build_succeeds_iff in Hok as [_ Hdisj]. by destruct (Hdisj i Hi).
    + apply build_Err in Hbuild. unfold InjectionMapping_of, mbind, Result_bind in Hbuild.
      destruct (mapping_add_all _ _) as [g|err'] eqn:Hadd; [done|].
      injection Hbuild as ->.
      destruct (mapping_add_all_Err _ _ _ Hadd) as (t & -> & _). by exists t.
Qed.

(** ** The output buffer size *)

(** C5: [setOutputBufferSize] fails for every [n <= 0]; for [n > 0] it
    succeeds and changes the requested size only, [build] on the resulting
    builder succeeds exactly when it would have before, and the context of
    the serializer it returns stores [min n MAX_BUFFER_SIZE], with
    [MAX_BUFFER_SIZE = 2 << 15 = 65536]; the capacity [serialize] gives its
    stream never exceeds the cap.  And [build] does return: on a builder
    whose own injections have distinct TypeIds, none of them an environment
    class, it returns a serializer after [setOutputBufferSize b n], whose
    context stores [n] itself up to the cap and 65536 from the cap on, and
    that value is the capacity [serialize] asks for. *)
Theorem setOutputBufferSize_capped (b : Builder.t) (n : Z) :
  MAX_BUFFER_SIZE = 65536
  ∧ ((n ≤ 0)%Z → setOutputBufferSize b n = Err IllegalArgumentException)
  ∧ ((0 < n)%Z →
     ∃ b', setOutputBufferSize b n = OK b'
           ∧ isOK (build b').2 = isOK (build b).2
           ∧ ∀ e, (build b').2 = OK e →
                  getOutputBufferSize (getContext e) = Z.min n MAX_BUFFER_SIZE
                  ∧ (outputStreamCapacity e ≤ MAX_BUFFER_SIZE)%Z)
  ∧ ((0 < n)%Z →
     NoDup (inj_type <$> Builder.injections b) →
     (∀ i, i ∈ Builder.injections b →
           inj_type i ∉ [RelOptCluster_class; CalciteCatalogReader_class;
                         StoragePluginRegistry_class]) →
     ∃ b' e, setOutputBufferSize b n = OK b'
             ∧ Builder.outputBufferSize b' = n
             ∧ Builder.injections b' = Builder.injections b
             ∧ (build b').2 = OK e
             ∧ getOutputBufferSize (getContext e) = Z.min n MAX_BUFFER_SIZE
             ∧ outputStreamCapacity e = Z.min n MAX_BUFFER_SIZE
             ∧ ((n ≤ 65536)%Z → getOutputBufferSize (getContext e) = n)
             ∧ ((65536 ≤ n)%Z → getOutputBufferSize (getContext e) = 65536)).
Proof.
  split; [reflexivity|]. unfold setOutputBufferSize, mbind, Result_bind, checkArgument.
  split; [|split].
  - intros Hn. destruct (n >? 0) eqn:Hgt; [lia|done].
  - intros Hn. destruct (n >? 0) eqn:Hgt; [|lia].
    eexists. split; [done|]. split.
    + apply eq_true_iff_eq. by rewrite !build_succeeds_iff.
    + intros e (m & _ & ->)%build_OK.
      unfold outputStreamCapacity, getOutputBufferSize, getContext. simpl. lia.
  - intros Hn Hnodup Hfree. destruct (n >? 0) eqn:Hgt; [|lia].
    set (b' := Builder.mk (Builder.injections b) (Builder.kryo b) (Builder.cluster b)
                 (Builder.catalog b) (Builder.registry b) n).
    assert (isOK (build b').2 = true) as Hreturns by by apply build_succeeds_iff.
    destruct (build b').2 as [e|err] eqn:Hbuild; [|done].
    exists b', e. split; [done|]. split; [done|]. split; [done|]. split; [done|].
    apply build_OK in Hbuild as (m & _ & ->).
    unfold outputStreamCapacity, getOutputBufferSize, getContext.
    cbn [RelSerializer.context builtContext SerializerContext.outputBufferSize
         Builder.outputBufferSize b'].
    assert (MAX_BUFFER_SIZE = 65536)%Z as -> by reflexivity.
    repeat split; lia.
Qed.

(** ** Repeated [build] *)

Lemma build_environmentInjections (b : Builder.t) :
  environmentInjections (build b).1 = environmentInjections b.
Proof.
  unfold build. destruct (InjectionMapping_of _); [|done].
  by destruct (newRelSerializer _ _ _).
Qed.

Lemma twice_injected_duplicates (b : Builder.t) :
  ¬ NoDup (inj_type <$> (Builder.injections b ++ environmentInjections b)
                        ++ environmentInjections b).
Proof.
  rewrite !fmap_app. intros Hnodup.
  apply NoDup_app in Hnodup as (_ & Hdisj & _).
  apply (Hdisj RelOptCluster_class).
  - apply elem_of_app. right. apply list_elem_of_here.
  - apply list_elem_of_here.
Qed.

(** C10: [build] is not idempotent on the builder.  Each call appends the
    three environment injections to the builder's own list, so the list a
    second [build] hands to the injection mapping names the three
    environment TypeIds twice. *)
Theorem build_not_idempotent (b : Builder.t) :
  Builder.injections (build b).1 = Builder.injections b ++ environmentInjections b
  ∧ Builder.injections (build (build b).1).1
    = (Builder.injections b ++ environmentInjections b) ++ environmentInjections b
  ∧ Builder.injections (injectPassedInstances (build b).1)
    = Builder.injections (build (build b).1).1
  ∧ ¬ NoDup (inj_type <$> Builder.injections (injectPassedInstances (build b).1))
  ∧ (inj_type <$> environmentInjections b)
    = [RelOptCluster_class; CalciteCatalogReader_class; StoragePluginRegistry_class].
Proof.
  split; [apply build_injections|]. split; [|split; [|split; [|done]]].
  - by rewrite !build_injections, build_environmentInjections.
  - by rewrite injectPassedInstances_injections, !build_injections.
  - rewrite injectPassedInstances_injections, build_injections,
      build_environmentInjections.
    apply twice_injected_duplicates.
Qed.

(** In this model of the injection mapping the second [build] on the same
    builder therefore always fails. *)
Lemma second_build_fails (b : Builder.t) :
  ∃ t, (build (build b).1).2 = Err (AmbiguousInjection t).
Proof.
  destruct (InjectionMapping_of_ambiguous _ (twice_injected_duplicates b))
    as (t & Hof & _).
  exists t. apply build_Err.
  by rewrite build_injections, build_environmentInjections.
Qed.

(** ** Dispatch *)

(** C3: the default resolution of [setup] is the walk over the four
    category predicates in their fixed order (operator descriptor, data-type
    descriptor, plugin handle, framework writable), each tested on the
    hierarchy of the queried type; the first that holds gives the strategy,
    and when none holds the injecting fallback is returned. *)
Theorem makeSerializer_first_match (this : RelSerializer.t) (pluginSerializer : Strategy)
    (type : Class) :
  (categoryPredicates this pluginSerializer).*1
  = [ isAssignableFrom SqlOperator_class; isAssignableFrom RelDataType_class;
      isAssignableFrom StoragePlugin_class; isAssignableFrom Writable_class ]
  ∧ makeSerializer this pluginSerializer type
    = firstMatch (categoryPredicates this pluginSerializer)
        (fun type => InjectingSerializer type (RelSerializer.mapping this)) type
  ∧ makeSerializer this pluginSerializer type
    = if isAssignableFrom SqlOperator_class type then SqlOperatorSerializer type
      else if isAssignableFrom RelDataType_class type then
        RelDataTypeSerializer type (getTypeFactory (getCluster (getContext this)))
      else if isAssignableFrom StoragePlugin_class type then pluginSerializer
      else if isAssignableFrom Writable_class type then WritableSerializer
      else InjectingSerializer type (RelSerializer.mapping this).
Proof.
  split; [reflexivity|]. split; [|reflexivity].
  unfold makeSerializer, categoryPredicates, firstMatch.
  destruct (isAssignableFrom SqlOperator_class type); [reflexivity|].
  destruct (isAssignableFrom RelDataType_class type); [reflexivity|].
  destruct (isAssignableFrom StoragePlugin_class type); [reflexivity|].
  destruct (isAssignableFrom Writable_class type); reflexivity.
Qed.

(** The fallback is reached exactly by the types outside all four
    categories. *)
Lemma makeSerializer_fallback (this : RelSerializer.t) (pluginSerializer : Strategy)
    (type : Class) :
  isAssignableFrom SqlOperator_class type = false →
  isAssignableFrom RelDataType_class type = false →
  isAssignableFrom StoragePlugin_class type = false →
  isAssignableFrom Writable_class type = false →
  makeSerializer this pluginSerializer type
  = InjectingSerializer type (RelSerializer.mapping this).
Proof. unfold makeSerializer. by intros -> -> -> ->. Qed.

(** Resolution reads the Kryo instance and leaves it as it was. *)
Lemma resolve_unchanged (k : Kryo) (type : Class) : (resolve k type).2 = k.
Proof. unfold resolve. by destruct (defaultSerializers k !! cname type). Qed.

(** ** The special-cased types *)

Lemma register_app (l1 l2 : list (TypeId * Strategy)) (k : Kryo) :
  register (l1 ++ l2) k = register l2 (register l1 k).
Proof. apply foldl_app. Qed.

Lemma register_cons (t : TypeId) (s : Strategy) (entries : list (TypeId * Strategy))
    (k : Kryo) :
  register ((t, s) :: entries) k = register entries (addDefaultSerializer t s k).
Proof. reflexivity. Qed.

Lemma register_defaultSerializer (entries : list (TypeId * Strategy)) (k : Kryo) :
  defaultSerializer (register entries k) = defaultSerializer k.
Proof.
  revert k. induction entries as [|[t s] entries IH]; intros k; [done|].
  by rewrite register_cons, IH.
Qed.

Lemma registrationsFor_cons (t : TypeId) (s : Strategy) (entries : list (TypeId * Strategy))
    (type : TypeId) :
  registrationsFor ((t, s) :: entries) type
  = if decide (t = type) then s :: registrationsFor entries type
    else registrationsFor entries type.
Proof.
  unfold registrationsFor. rewrite filter_cons. simpl. by case_decide.
Qed.



(** The entry of a TypeId after a run of registrations: what the Kryo
    instance keeps, one registration for that TypeId after the other. *)
Lemma register_lookup (entries : list (TypeId * Strategy)) (k : Kryo) (type : TypeId) :
  defaultSerializers (register entries k) !! type
  = foldl keepRegistered (defaultSerializers k !! type) (registrationsFor entries type).
Proof.
  revert k. induction entries as [|[t s] entries IH]; intros k; [done|].
  rewrite register_cons, IH, registrationsFor_cons.
  unfold addDefaultSerializer. simpl. rewrite lookup_partial_alter.
  case_decide; [by subst t|done].
Qed.

Lemma setup_as_register (this : RelSerializer.t) (k : Kryo) :
  setup this k
  = register (specialCases this)
      (setDefaultSerializer
         (makeSerializer this (StoragePluginSerializer (getRegistry (getContext this))))
         (setInstantiatorStrategy (DefaultInstantiatorStrategy (Some StdInstantiatorStrategy))
            (setWarnUnregisteredClasses false k))).
Proof. unfold setup, specialCases. by rewrite !register_app. Qed.

Lemma setup_lookup (this : RelSerializer.t) (k : Kryo) (type : TypeId) :
  defaultSerializers (setup this k) !! type
  = foldl keepRegistered (defaultSerializers k !! type)
      (registrationsFor (specialCases this) type).
Proof. by rewrite setup_as_register, register_lookup. Qed.

Lemma setup_defaultSerializer (this : RelSerializer.t) (k : Kryo) :
  defaultSerializer (setup this k)
  = makeSerializer this (StoragePluginSerializer (getRegistry (getContext this))).
Proof. by rewrite setup_as_register, register_defaultSerializer. Qed.

Lemma strategyFor_setup (this : RelSerializer.t) (k : Kryo) (type : Class) :
  strategyFor (setup this k) type
  = match foldl keepRegistered (defaultSerializers k !! cname type)
            (registrationsFor (specialCases this) (cname type)) with
    | Some s => s
    | None =>
        makeSerializer this (StoragePluginSerializer (getRegistry (getContext this))) type
    end.
Proof.
  unfold strategyFor, resolve. rewrite setup_lookup, setup_defaultSerializer.
  by destruct (foldl _ _ _).
Qed.




(** ** Repeated calls of the factory *)


Lemma makeSerializerCall_created (this : RelSerializer.t) (pluginSerializer : SerializerObject)
    (type : Class) (created : nat) :
  (makeSerializerCall this pluginSerializer type created).2
  = if isAssignableFrom SqlOperator_class type then S created
    else if isAssignableFrom RelDataType_class type then S created
    else if isAssignableFrom StoragePlugin_class type then created
    else S created.
Proof.
  unfold makeSerializerCall.
  destruct (isAssignableFrom SqlOperator_class type); [done|].
  destruct (isAssignableFrom RelDataType_class type); [done|].
  destruct (isAssignableFrom StoragePlugin_class type); [done|].
  by destruct (isAssignableFrom Writable_class type).
Qed.



(** ** The wire: unfolding equations *)

Lemma writeClassAndObject_eq (k : Kryo) (v : Value) (ty : Class) :
  classOf v = Some ty →
  writeClassAndObject k v
  = (body ← writeWith (writeAll k) (strategyFor k ty) v; OK (TType ty :: body)).
Proof. destruct v; intros [= <-]; reflexivity. Qed.

Lemma readClassAndObject_eq (k : Kryo) (fuel : nat) (ts : list Token) :
  readClassAndObject k (S fuel) ts
  = match ts with
    | TNum z :: rest => OK (VPrim z, rest)
    | TType ty :: rest => readWith (readAll k fuel) (strategyFor k ty) ty rest
    | _ => Err StructuralDecodeError
    end.
Proof. reflexivity. Qed.

Lemma payload_ok_eq (k : Kryo) (v : Value) (ty : Class) :
  classOf v = Some ty →
  payload_ok k v ↔ fitsStrategy k (Forall (payload_ok k)) (strategyFor k ty) v.
Proof.
  assert (Hall : ∀ vs,
    (fix allOk (vs : list Value) : Prop :=
       match vs with
       | [] => True
       | v :: vs' => payload_ok k v ∧ allOk vs'
       end) vs ↔ Forall (payload_ok k) vs).
  { induction vs as [|v' vs IH]; [by split|].
    rewrite Forall_cons, <- IH. reflexivity. }
  destruct v; intros [= ->]; simpl;
    destruct (strategyFor k ty) as [| | | |t m| | | |]; simpl; try reflexivity.
  - destruct (InjectionMapping_lookup m (cname t)); [reflexivity|apply Hall].
  - by rewrite Hall.
Qed.

Lemma readBytes_raw (raw : list byte) (rest : list Token) :
  readBytes (length raw) ((TByte <$> raw) ++ rest) = OK (raw, rest).
Proof.
  induction raw as [|b raw IH]; [done|].
  rewrite fmap_cons. cbn [length app readBytes]. by rewrite IH.
Qed.

(** ** The round trip of one node *)

Lemma injectionFor_injecting (k : Kryo) (ty t : Class) (m : InjectionMapping) :
  strategyFor k ty = InjectingSerializer t m →
  injectionFor k ty = InjectionMapping_lookup m (cname t).
Proof. unfold injectionFor. by intros ->. Qed.

Lemma injectionFor_category (k : Kryo) (ty : Class) :
  (∀ t m, strategyFor k ty ≠ InjectingSerializer t m) →
  injectionFor k ty = None.
Proof.
  unfold injectionFor. intros Hcat.
  destruct (strategyFor k ty) as [| | | |t m| | | |]; try done. by destruct (Hcat t m).
Qed.

Lemma firstMissing_eq (k : Kryo) (D : gset TypeId) (v : Value) (ty : Class) :
  classOf v = Some ty →
  firstMissing k D v = missingWith D (firstMissingIn k D) (strategyFor k ty) v.
Proof. destruct v; intros [= ->]; reflexivity. Qed.

Lemma fields_readBack (ke kd : Kryo) (D : gset TypeId) (vs : list Value) :
  Forall (fun v => payload_ok ke v → readsBack ke kd D v) vs →
  Forall (payload_ok ke) vs →
  ∃ ts, writeAll ke vs = OK ts
        ∧ ∀ fuel rest, (length ts ≤ fuel)%nat →
            readAll kd fuel (length vs) (ts ++ rest)
            = match firstMissingIn ke D vs with
              | Some X => Err (ResolutionError X)
              | None => OK (withInjections ke <$> vs, rest)
              end.
Proof.
  induction 1 as [|v vs Hv _ IH]; intros Hok.
  - exists []. by split.
  - apply Forall_cons in Hok as [Hokv Hokvs].
    destruct (Hv Hokv) as (a & Hwrite & Hread).
    destruct (IH Hokvs) as (b & Hwrites & Hreads).
    exists (a ++ b). split.
    + cbn [writeAll]. fold (writeAll ke). rewrite Hwrite. cbn [mbind Result_bind].
      by rewrite Hwrites.
    + intros fuel rest Hfuel. rewrite length_app in Hfuel.
      cbn [length readAll firstMissingIn].
      fold (readAll kd fuel). fold (firstMissingIn ke D).
      rewrite <- app_assoc, Hread by lia.
      destruct (firstMissing ke D v) as [X|]; [done|]. cbn [mbind Result_bind].
      rewrite Hreads by lia.
      destruct (firstMissingIn ke D vs) as [X|]; [done|]. by rewrite fmap_cons.
Qed.

(** One step of the reader on a node of type [ty] whose strategy on the
    decoding engine is known. *)
Local Ltac read_node Hs :=
  let fuel := fresh "fuel" in
  let rest := fresh "rest" in
  let Hfuel := fresh "Hfuel" in
  intros [|fuel] rest Hfuel; [simpl in Hfuel; lia|];
  cbn [app]; rewrite readClassAndObject_eq, Hs; simpl in Hfuel |- *.

(** Every acceptable payload graph is read back by an engine that decodes
    for the encoder, up to the first injection it misses. *)
Lemma node_readBack (ke kd : Kryo) (D : gset TypeId) (v : Value) :
  decodesWithout ke kd D → payload_ok ke v → readsBack ke kd D v.
Proof.
  intros Hagree.
  assert (Hinjected : ∀ ty t m instance (x : Value),
    classOf x = Some ty →
    strategyFor ke ty = InjectingSerializer t m →
    InjectionMapping_lookup m (cname t) = Some instance →
    readsBack ke kd D x).
  { intros ty t m instance x Hclass Hs Hm. unfold readsBack.
    rewrite (writeClassAndObject_eq ke _ ty Hclass), (firstMissing_eq ke D _ ty Hclass), Hs.
    assert (Hx : writeWith (writeAll ke) (InjectingSerializer t m) x = OK [TTag INJECTED]).
    { destruct x; simpl; unfold writeInjecting; by rewrite Hm. }
    assert (Hw : withInjections ke x = instance).
    { destruct x; simpl in Hclass; simplify_eq; simpl;
        by rewrite (injectionFor_injecting _ _ _ _ Hs), Hm. }
    rewrite Hx, Hw. cbn [missingWith]. rewrite Hm.
    pose proof (Hagree ty) as Hd. rewrite Hs in Hd. destruct Hd as (m' & Hd & Hm').
    eexists. split; [done|]. read_node Hd. rewrite (Hm' _ Hm).
    by case_bool_decide. }
  induction v as [z|ty fields IH|ty name|ty kind precision scale elems IH|ty raw]
    using Value_ind.
  - intros _. exists [TNum z]. split; [done|].
    intros [|fuel] rest Hfuel; [simpl in Hfuel; lia|done].
  - rewrite (payload_ok_eq ke _ ty) by done.
    destruct (strategyFor ke ty) as [| | | |t m| | | |] eqn:Hs; try done.
    destruct (InjectionMapping_lookup m (cname t)) as [instance|] eqn:Hm;
      [intros _; by eapply Hinjected|].
    cbn [fitsStrategy]. rewrite Hm. intros Hok. unfold readsBack.
    rewrite (writeClassAndObject_eq ke _ ty), (firstMissing_eq ke D _ ty), Hs by done.
    cbn [writeWith missingWith withInjections]. unfold writeInjecting.
    rewrite (injectionFor_injecting _ _ _ _ Hs), Hm.
    destruct (fields_readBack ke kd D fields IH Hok) as (ts & -> & Hread).
    pose proof (Hagree ty) as Hd. rewrite Hs in Hd. destruct Hd as (m' & Hd & _).
    eexists. split; [done|]. read_node Hd.
    rewrite Hread by lia. by destruct (firstMissingIn ke D fields).
  - rewrite (payload_ok_eq ke _ ty) by done.
    pose proof (Hagree ty) as Hd.
    destruct (strategyFor ke ty) as [t|t tf|reg| |t m| | | |] eqn:Hs; try done;
      [| |intros [instance Hm]; by eapply Hinjected];
      cbn [fitsStrategy]; intros Hknown; unfold readsBack;
      rewrite (writeClassAndObject_eq ke _ ty), (firstMissing_eq ke D _ ty), Hs by done;
      (eexists; split; [done|]); read_node Hd; rewrite Hknown;
      by rewrite injectionFor_category by (rewrite Hs; done).
  - rewrite (payload_ok_eq ke _ ty) by done.
    pose proof (Hagree ty) as Hd.
    destruct (strategyFor ke ty) as [t|t tf|reg| |t m| | | |] eqn:Hs; try done;
      [|intros [instance Hm]; by eapply Hinjected].
    cbn [fitsStrategy]. intros [Hok Hfactory]. unfold readsBack.
    rewrite (writeClassAndObject_eq ke _ ty), (firstMissing_eq ke D _ ty), Hs by done.
    cbn [writeWith missingWith].
    destruct (fields_readBack ke kd D elems IH Hok) as (ts & -> & Hread).
    eexists. split; [done|]. read_node Hd.
    rewrite Hread by lia. destruct (firstMissingIn ke D elems); [done|].
    simpl. rewrite Hfactory.
    by rewrite injectionFor_category by (rewrite Hs; done).
  - rewrite (payload_ok_eq ke _ ty) by done.
    pose proof (Hagree ty) as Hd.
    destruct (strategyFor ke ty) as [t|t tf|reg| |t m| | | |] eqn:Hs; try done;
      [|intros [instance Hm]; by eapply Hinjected].
    intros _. unfold readsBack.
    rewrite (writeClassAndObject_eq ke _ ty), (firstMissing_eq ke D _ ty), Hs by done.
    eexists. split; [done|]. read_node Hd.
    rewrite readBytes_raw. simpl.
    by rewrite injectionFor_category by (rewrite Hs; done).
Qed.

Lemma decodesWithout_refl (k : Kryo) : decodesWithout k k ∅.
Proof.
  intros ty. destruct (strategyFor k ty) as [| | | |t m| | | |]; try done.
  exists m. split; [done|]. intros instance ->. by rewrite bool_decide_eq_false_2.
Qed.

Lemma firstMissing_none (k : Kryo) (v : Value) : firstMissing k ∅ v = None.
Proof.
  assert (Hall : ∀ vs,
    Forall (fun v => firstMissing k ∅ v = None) vs → firstMissingIn k ∅ vs = None).
  { induction 1 as [|v' vs Hv _ IH]; [done|]. simpl. by rewrite Hv. }
  induction v as [z|ty fields IH|ty name|ty kind precision scale elems IH|ty raw]
    using Value_ind; [done|..];
    rewrite (firstMissing_eq k ∅ _ ty) by done;
    destruct (strategyFor k ty) as [| | | |t m| | | |]; try done; simpl;
    try destruct (InjectionMapping_lookup m (cname t)); try done; by apply Hall.
Qed.

(** Every acceptable payload graph round-trips on the stream. *)
Lemma node_roundTrip (k : Kryo) (v : Value) : payload_ok k v → roundTrips k v.
Proof.
  intros Hok.
  destruct (node_readBack k k ∅ v (decodesWithout_refl k) Hok) as (ts & Hwrite & Hread).
  exists ts. split; [done|]. intros fuel rest Hfuel.
  rewrite (Hread fuel rest Hfuel). by rewrite firstMissing_none.
Qed.

Lemma instancesHeld_unchanged (k : Kryo) (v : Value) :
  instancesHeld k v → withInjections k v = v.
Proof.
  assert (Hall : ∀ vs,
    Forall (fun v => instancesHeld k v → withInjections k v = v) vs →
    (fix all_held (vs : list Value) : Prop :=
       match vs with
       | [] => True
       | v :: vs' => instancesHeld k v ∧ all_held vs'
       end) vs →
    withInjections k <$> vs = vs).
  { induction 1 as [|v' vs Hv _ IH]; [done|].
    intros [Hheld Hrest]. by rewrite fmap_cons, (Hv Hheld), (IH Hrest). }
  induction v as [z|ty fields IH|ty name|ty kind precision scale elems IH|ty raw]
    using Value_ind; simpl; try done;
    destruct (injectionFor k ty) as [instance|]; try done.
  - intros Hheld. by rewrite (Hall fields IH Hheld).
  - intros Hheld. by rewrite (Hall elems IH Hheld).
Qed.

(** ** The round trip through the engine *)

(** What one engine writes for a payload graph, read by an engine that
    decodes for it: the graph with its injections, or the resolution error
    at the first injection the reader misses. *)
Lemma serialize_then_deserialize (encoder decoder : RelSerializer.t) (D : gset TypeId)
    (G : Value) :
  envelopePrivate encoder →
  decodesWithout (RelSerializer.kryo encoder) (RelSerializer.kryo decoder) D →
  payload_ok (RelSerializer.kryo encoder) G →
  ∃ data, serialize encoder G = OK data
          ∧ deserialize decoder data
            = match firstMissing (RelSerializer.kryo encoder) D G with
              | Some X => Err (ResolutionError X)
              | None => OK (withInjections (RelSerializer.kryo encoder) G)
              end.
Proof.
  intros (m & Hs & Hm) Hagree HG.
  set (ke := RelSerializer.kryo encoder) in *.
  set (kd := RelSerializer.kryo decoder) in *.
  assert (Hwrapped : payload_ok ke (SerializationWrapper_of G)).
  { apply (payload_ok_eq ke _ SerializationWrapper_class); [done|].
    rewrite Hs. cbn [fitsStrategy SerializationWrapper_of]. rewrite Hm.
    by constructor. }
  destruct (node_readBack ke kd D _ Hagree Hwrapped) as (ts & Hwrite & Hread).
  rewrite (firstMissing_eq ke D _ SerializationWrapper_class) in Hread by done.
  rewrite Hs in Hread. cbn [missingWith SerializationWrapper_of firstMissingIn] in Hread.
  rewrite Hm in Hread.
  unfold serialize, deserialize, writeObject, readObject. fold ke kd.
  rewrite Hwrite.
  rewrite (writeClassAndObject_eq ke _ SerializationWrapper_class) in Hwrite by done.
  destruct (writeWith _ _ _) as [body|]; [|done]. injection Hwrite as <-.
  cbn [mbind Result_bind]. exists body. split; [done|].
  specialize (Hread (S (length body)) [] (Nat.le_refl _)).
  rewrite app_nil_r in Hread. rewrite Hread.
  destruct (firstMissing ke D G) as [X|]; [done|].
  cbn [withInjections SerializationWrapper_of].
  rewrite (injectionFor_injecting _ _ _ _ Hs), Hm.
  cbn [mbind Result_bind getValue fmap list_fmap].
  by rewrite bool_decide_eq_true_2.
Qed.

(** C1: on an engine whose envelope class is private, every payload graph
    built from plain structural values, values of injected types and known
    operator, data-type and plugin values (and writables) is serialized, and
    deserializing the result gives the graph back with every subtree of an
    injected type replaced by the instance the injection mapping holds;
    when those subtrees are the held instances themselves, the graph comes
    back unchanged. *)
Theorem serialize_deserialize_roundtrip (this : RelSerializer.t) (G : Value) :
  envelopePrivate this →
  payload_ok (RelSerializer.kryo this) G →
  ∃ data, serialize this G = OK data
          ∧ deserialize this data = OK (withInjections (RelSerializer.kryo this) G)
          ∧ (instancesHeld (RelSerializer.kryo this) G → deserialize this data = OK G).
Proof.
  intros Henvelope HG.
  destruct (serialize_then_deserialize this this ∅ G Henvelope
              (decodesWithout_refl _) HG) as (data & Hser & Hback).
  rewrite firstMissing_none in Hback.
  exists data. split; [done|]. split; [done|].
  intros Hheld. by rewrite Hback, instancesHeld_unchanged.
Qed.

(** ** A missing injection *)

(** Wherever it stands in the stream, a value written with the injected
    tag is not read back by an engine that holds no injection for its
    type. *)
Lemma read_injected_without_injection (k : Kryo) (X : Class) (m : InjectionMapping)
    (fuel : nat) (rest : list Token) :
  strategyFor k X = InjectingSerializer X m →
  InjectionMapping_lookup m (cname X) = None →
  readClassAndObject k (S fuel) (TType X :: TTag INJECTED :: rest)
  = Err (ResolutionError (cname X)).
Proof. intros Hs Hm. rewrite readClassAndObject_eq, Hs. simpl. by rewrite Hm. Qed.

(** C4: a value of a type [X] that the encoding engine injects is written
    with the injected tag; an engine whose mapping holds nothing for [X]
    fails on those tokens with the resolution error naming [X], at the root
    of the payload as at any later place of a stream, and returns no value
    in its place. *)
Theorem missing_injection_fails (encoder decoder : RelSerializer.t) (x : Value) (X : Class)
    (m1 m2 : InjectionMapping) :
  classOf x = Some X →
  strategyFor (RelSerializer.kryo encoder) X = InjectingSerializer X m1 →
  is_Some (InjectionMapping_lookup m1 (cname X)) →
  strategyFor (RelSerializer.kryo decoder) X = InjectingSerializer X m2 →
  InjectionMapping_lookup m2 (cname X) = None →
  envelopePrivate encoder →
  envelopePrivate decoder →
  writeClassAndObject (RelSerializer.kryo encoder) x = OK [TType X; TTag INJECTED]
  ∧ serialize encoder x = OK [TTag STRUCTURAL; TLen 1; TType X; TTag INJECTED]
  ∧ deserialize decoder [TTag STRUCTURAL; TLen 1; TType X; TTag INJECTED]
    = Err (ResolutionError (cname X))
  ∧ ∀ fuel rest,
      readClassAndObject (RelSerializer.kryo decoder) (S fuel)
        ([TType X; TTag INJECTED] ++ rest)
      = Err (ResolutionError (cname X)).
Proof.
  intros Hclass Hs1 [instance Hm1] Hs2 Hm2 (me & Hse & Hme) (md & Hsd & Hmd).
  assert (Hx : writeClassAndObject (RelSerializer.kryo encoder) x
               = OK [TType X; TTag INJECTED]).
  { rewrite (writeClassAndObject_eq _ _ X Hclass), Hs1.
    assert (Hx : writeWith (writeAll (RelSerializer.kryo encoder))
                   (InjectingSerializer X m1) x = OK [TTag INJECTED]).
    { destruct x; simpl; unfold writeInjecting; by rewrite Hm1. }
    by rewrite Hx. }
  split; [done|]. split; [|split].
  - unfold serialize, writeObject, SerializationWrapper_of.
    rewrite (writeClassAndObject_eq _ _ SerializationWrapper_class) by done.
    rewrite Hse. cbn [writeWith]. unfold writeInjecting at 1. rewrite Hme.
    cbn [writeAll]. by rewrite Hx.
  - unfold deserialize, readObject. rewrite readClassAndObject_eq, Hsd.
    cbn [readWith length]. rewrite bool_decide_eq_false_2 by done.
    rewrite bool_decide_eq_true_2 by done. cbn [readAll].
    by rewrite (read_injected_without_injection _ _ _ _ _ Hs2 Hm2).
  - intros fuel rest. by apply (read_injected_without_injection _ _ m2).
Qed.

(** The same inside a payload graph: when the decoding engine dispatches as
    the encoder does and holds its instances except for the TypeIds in [D],
    and the graph has a value of a type in [D] that the encoder writes as
    injected, deserializing fails with the resolution error for the first
    such type. *)
Lemma missing_injection_fails_in_graph (encoder decoder : RelSerializer.t)
    (D : gset TypeId) (G : Value) (X : TypeId) :
  envelopePrivate encoder →
  decodesWithout (RelSerializer.kryo encoder) (RelSerializer.kryo decoder) D →
  payload_ok (RelSerializer.kryo encoder) G →
  firstMissing (RelSerializer.kryo encoder) D G = Some X →
  ∃ data, serialize encoder G = OK data
          ∧ deserialize decoder data = Err (ResolutionError X).
Proof.
  intros Henvelope Hagree HG HX.
  destruct (serialize_then_deserialize encoder decoder D G Henvelope Hagree HG)
    as (data & Hser & Hback).
  rewrite HX in Hback. by exists data.
Qed.

(** ** Engines made by the builder *)

(** On an engine made by [build], a type that is neither special-cased nor
    in one of the four categories resolves to the injecting fallback over
    the engine's own mapping. *)
Lemma built_engine_fallback (b : Builder.t) (e : RelSerializer.t) (type : Class) :
  (build b).2 = OK e →
  defaultSerializers (Builder.kryo b) !! cname type = None →
  (∀ this, registrationsFor (specialCases this) (cname type) = []) →
  isAssignableFrom SqlOperator_class type = false →
  isAssignableFrom RelDataType_class type = false →
  isAssignableFrom StoragePlugin_class type = false →
  isAssignableFrom Writable_class type = false →
  strategyFor (RelSerializer.kryo e) type
  = InjectingSerializer type (RelSerializer.mapping e).
Proof.
  intros (m & _ & ->)%build_OK Hfree Hspecial Hop Hdt Hpl Hwr.
  cbn [RelSerializer.kryo RelSerializer.mapping].
  rewrite strategyFor_setup, Hspecial, Hfree. by rewrite makeSerializer_fallback.
Qed.

(** The envelope class is private on an engine made by [build], unless the
    caller or a registration helper has named it. *)
Lemma built_envelopePrivate (b : Builder.t) (e : RelSerializer.t) :
  (build b).2 = OK e →
  defaultSerializers (Builder.kryo b) !! cname SerializationWrapper_class = None →
  (∀ this, registrationsFor (specialCases this) (cname SerializationWrapper_class) = []) →
  cname SerializationWrapper_class ∉ inj_type <$> Builder.injections b →
  envelopePrivate e.
Proof.
  intros Hbuild Hfree Hspecial Hcaller. exists (RelSerializer.mapping e). split.
  - by apply (built_engine_fallback b).
  - apply build_OK in Hbuild as (m & Hof & ->). cbn [RelSerializer.mapping].
    destruct (InjectionMapping_of_OK _ _ Hof) as (_ & _ & Hout). apply Hout.
    rewrite fmap_app, elem_of_app. intros [Hin|Hin]; [done|].
    revert Hin. compute_done.
Qed.

Lemma registrationsFor_elem (entries : list (TypeId * Strategy)) (t : TypeId) (s : Strategy) :
  s ∈ registrationsFor entries t → (t, s) ∈ entries.
Proof.
  unfold registrationsFor. intros ([t' s'] & -> & Hin)%list_elem_of_fmap.
  apply list_elem_of_filter in Hin as [Heq Hin]. simpl in *. by subst t'.
Qed.

(** Whatever the Kryo instance keeps of repeated registrations, it is not
    an injecting serializer when it makes none out of two that are not and
    none of the registered ones is. *)
Lemma keepRegistered_not_injecting (held : option Strategy) (l : list Strategy) :
  (∀ old new, isInjecting old = false → isInjecting new = false →
              isInjecting (reregistered old new) = false) →
  (∀ s, held = Some s → isInjecting s = false) →
  Forall (fun s => isInjecting s = false) l →
  ∀ s, foldl keepRegistered held l = Some s → isInjecting s = false.
Proof.
  intros Hpolicy. revert held. induction l as [|r l IH]; intros held Hheld Hl s; simpl.
  - apply Hheld.
  - apply Forall_cons in Hl as [Hr Hl]. apply IH; [|done].
    intros s'. destruct held as [old|]; simpl; intros [= <-]; [|done].
    apply Hpolicy; [by apply Hheld|done].
Qed.

(** Two engines made from the same builder, one of them with one more
    injection: the one without decodes for the one with it, except for that
    injection. *)
Lemma built_decodesWithout (b : Builder.t) (X : TypeId) (x : Value)
    (encoder decoder : RelSerializer.t) :
  (∀ old new, isInjecting old = false → isInjecting new = false →
              isInjecting (reregistered old new) = false) →
  Forall (fun e => isInjecting e.2 = false) helperEntries →
  map_Forall (fun _ s => isInjecting s = false) (defaultSerializers (Builder.kryo b)) →
  (build (withInjectionOf b X x)).2 = OK encoder →
  (build b).2 = OK decoder →
  decodesWithout (RelSerializer.kryo encoder) (RelSerializer.kryo decoder) {[X]}.
Proof.
  intros Hpolicy Hlibrary Hkryo (me & Hme & ->)%build_OK (md & Hmd & ->)%build_OK ty.
  cbn [RelSerializer.kryo withInjectionOf withInjection Builder.kryo Builder.injections] in *.
  change (builtContext _) with (builtContext b).
  change (environmentInjections _) with (environmentInjections b) in Hme.
  rewrite !strategyFor_setup.
  change (specialCases (RelSerializer.mk (Builder.kryo b) md (builtContext b)))
    with (specialCases (RelSerializer.mk (Builder.kryo b) me (builtContext b))).
  destruct (foldl keepRegistered _ _) as [s|] eqn:Hkept.
  { assert (isInjecting s = false) as Hs; [|by destruct s].
    revert s Hkept. apply keepRegistered_not_injecting; [done| |].
    - intros s Hregistered. by apply (Hkryo _ _ Hregistered).
    - apply Forall_forall. intros s Hin%registrationsFor_elem.
      unfold specialCases in Hin. rewrite !app_assoc, elem_of_app in Hin.
      destruct Hin as [Hin|Hin].
      + rewrite <- !app_assoc in Hin. fold helperEntries in Hin.
        rewrite Forall_forall in Hlibrary. by apply (Hlibrary _ Hin).
      + repeat (apply elem_of_cons in Hin as [[= _ ->]|Hin]; [done|]).
        by apply elem_of_nil in Hin. }
  unfold makeSerializer. cbn [getContext RelSerializer.context RelSerializer.mapping].
  destruct (isAssignableFrom SqlOperator_class ty); [done|].
  destruct (isAssignableFrom RelDataType_class ty); [done|].
  destruct (isAssignableFrom StoragePlugin_class ty); [done|].
  destruct (isAssignableFrom Writable_class ty); [done|].
  exists md. split; [done|]. intros instance Hinstance.
  destruct (InjectionMapping_of_OK _ _ Hme) as (Hnodup & Hin_e & Hout_e).
  destruct (InjectionMapping_of_OK _ _ Hmd) as (_ & Hin_d & Hout_d).
  assert (Hentry : ∃ i, i ∈ (Builder.injections b ++ [Injection_of X x])
                            ++ environmentInjections b
                        ∧ inj_type i = cname ty ∧ inj_value i = instance).
  { destruct (decide (cname ty ∈ inj_type <$> (Builder.injections b ++ [Injection_of X x])
                                   ++ environmentInjections b)) as [Hty|Hty].
    - apply list_elem_of_fmap in Hty as (i & Heq & Hi). exists i. split; [done|].
      split; [done|]. specialize (Hin_e i Hi). rewrite <- Heq in Hin_e. congruence.
    - rewrite (Hout_e _ Hty) in Hinstance. done. }
  destruct Hentry as (i & Hi & Htype & Hvalue).
  rewrite !fmap_app in Hnodup. apply NoDup_app in Hnodup as (Hcaller & Hdisj & _).
  apply NoDup_app in Hcaller as (_ & Hfresh & _).
  case_bool_decide as HX.
  - apply elem_of_singleton in HX. apply Hout_d. rewrite fmap_app, elem_of_app.
    rewrite HX. intros [Hin|Hin].
    + apply (Hfresh X Hin). simpl. apply list_elem_of_here.
    + apply (Hdisj X); [|done]. rewrite elem_of_app. right. simpl. apply list_elem_of_here.
  - rewrite <- Htype, <- Hvalue. apply Hin_d.
    rewrite !elem_of_app in Hi. rewrite elem_of_app.
    destruct Hi as [[Hi|Hi]|Hi]; [by left| |by right].
    apply list_elem_of_singleton in Hi. subst i. simpl in Htype.
    destruct HX. apply elem_of_singleton. done.
Qed.

(** * Further properties of the serializer's file *)

(** ** The two constructors *)

(** The constructor of [RelSerializer] returns exactly when its three
    arguments are present, and then holds them; otherwise it throws a
    [NullPointerException] that names the first absent one, in the order
    kryo, mapping, context. *)
Theorem newRelSerializer_checks (kryo : option Kryo) (mapping : option InjectionMapping)
    (context : option SerializerContext.t) :
  (∀ e, newRelSerializer kryo mapping context = OK e ↔
        kryo = Some (RelSerializer.kryo e) ∧ mapping = Some (RelSerializer.mapping e)
        ∧ context = Some (RelSerializer.context e))
  ∧ (kryo = None →
     newRelSerializer kryo mapping context = Err (NullPointerException "kryo is required"))
  ∧ (is_Some kryo → mapping = None →
     newRelSerializer kryo mapping context
     = Err (NullPointerException "mapping is required"))
  ∧ (is_Some kryo → is_Some mapping → context = None →
     newRelSerializer kryo mapping context
     = Err (NullPointerException "context is required")).
Proof.
  unfold newRelSerializer.
  destruct kryo as [k|], mapping as [m|], context as [c|]; simpl;
    (split; [intros [k' m' c']; simpl; split;
               [try discriminate; by intros [= <- <- <-]
               |intros (Hk & Hm & Hc); by simplify_eq]|]);
    repeat split; try done; by intros [].
Qed.

(** [newBuilder] returns exactly when its four arguments are present, and
    then the builder holds them, no injection, and the buffer size at the
    cap; otherwise it throws a [NullPointerException] that names the first
    absent one, in the order kryo, cluster, catalog, registry. *)
Theorem newBuilder_checks (kryo : option Kryo) (cluster : option RelOptCluster)
    (catalog : option CalciteCatalogReader) (registry : option StoragePluginRegistry) :
  (∀ b, newBuilder kryo cluster catalog registry = OK b ↔
        kryo = Some (Builder.kryo b) ∧ cluster = Some (Builder.cluster b)
        ∧ catalog = Some (Builder.catalog b) ∧ registry = Some (Builder.registry b)
        ∧ Builder.injections b = [] ∧ Builder.outputBufferSize b = MAX_BUFFER_SIZE)
  ∧ (kryo = None →
     newBuilder kryo cluster catalog registry
     = Err (NullPointerException "kryo is required"))
  ∧ (is_Some kryo → cluster = None →
     newBuilder kryo cluster catalog registry
     = Err (NullPointerException "cluster is required"))
  ∧ (is_Some kryo → is_Some cluster → catalog = None →
     newBuilder kryo cluster catalog registry
     = Err (NullPointerException "catalog is required"))
  ∧ (is_Some kryo → is_Some cluster → is_Some catalog → registry = None →
     newBuilder kryo cluster catalog registry
     = Err (NullPointerException "registry is required")).
Proof.
  unfold newBuilder.
  destruct kryo as [k|], cluster as [cl|], catalog as [ca|], registry as [r|]; simpl;
    (split; [intros [l k' cl' ca' r' n]; simpl; split;
               [try discriminate; by intros [= <- <- <- <- <-]
               |intros (Hk & Hcl & Hca & Hr & Hl & Hn); by simplify_eq]|]);
    repeat split; try done; by intros [].
Qed.

(** ** What builder calls keep *)

Lemma build_fields (b : Builder.t) :
  Builder.cluster (build b).1 = Builder.cluster b
  ∧ Builder.catalog (build b).1 = Builder.catalog b
  ∧ Builder.registry (build b).1 = Builder.registry b
  ∧ Builder.outputBufferSize (build b).1 = Builder.outputBufferSize b.
Proof.
  unfold build. destruct (InjectionMapping_of _); [|done].
  by destruct (newRelSerializer _ _ _).
Qed.

Lemma builderCall_keeps (b b' : Builder.t) :
  builderCall b b' →
  Builder.cluster b' = Builder.cluster b
  ∧ Builder.catalog b' = Builder.catalog b
  ∧ Builder.registry b' = Builder.registry b
  ∧ Builder.injections b `prefix_of` Builder.injections b'
  ∧ ((0 < Builder.outputBufferSize b)%Z → (0 < Builder.outputBufferSize b')%Z).
Proof.
  destruct 1 as [b i|b b' n Hset|b].
  - repeat split; try done. by apply prefix_app_r.
  - unfold setOutputBufferSize, checkArgument in Hset.
    destruct (n >? 0)%Z eqn:Hn; [|done]. simpl in Hset. injection Hset as <-.
    repeat split; try done. simpl. lia.
  - destruct (build_fields b) as (-> & -> & -> & ->). rewrite build_injections.
    repeat split; try done. by apply prefix_app_r.
Qed.

Lemma builderCalls_keep (b0 b : Builder.t) :
  rtc builderCall b0 b →
  Builder.cluster b = Builder.cluster b0
  ∧ Builder.catalog b = Builder.catalog b0
  ∧ Builder.registry b = Builder.registry b0
  ∧ Builder.injections b0 `prefix_of` Builder.injections b
  ∧ ((0 < Builder.outputBufferSize b0)%Z → (0 < Builder.outputBufferSize b)%Z).
Proof.
  induction 1 as [b|b0 b1 b Hcall _ IH]; [done|].
  destruct (builderCall_keeps _ _ Hcall) as (Hcl & Hca & Hr & Hpre & Hpos).
  destruct IH as (-> & -> & -> & Hpre' & Hpos'). repeat split; try done.
  - by etrans.
  - intros Hsize. by apply Hpos', Hpos.
Qed.

(** Whatever calls are made on a builder, in whatever order and with
    whatever outcome, its cluster, catalog and registry stay the ones it
    has, the injections it holds stay where they are (the list only grows
    at its end), and a positive buffer size stays positive. *)
Theorem builder_calls_keep_state (b0 b : Builder.t) :
  rtc builderCall b0 b →
  Builder.cluster b = Builder.cluster b0
  ∧ Builder.catalog b = Builder.catalog b0
  ∧ Builder.registry b = Builder.registry b0
  ∧ Builder.injections b0 `prefix_of` Builder.injections b
  ∧ ((0 < Builder.outputBufferSize b0)%Z → (0 < Builder.outputBufferSize b)%Z).
Proof. apply builderCalls_keep. Qed.

(** A serializer obtained from a builder made by [newBuilder], after any
    calls on that builder, has a context that holds the three references
    the builder was made with and a buffer size between 1 and the cap. *)
Theorem built_context_bounds (k : Kryo) (cl : RelOptCluster) (ca : CalciteCatalogReader)
    (r : StoragePluginRegistry) (b0 b : Builder.t) (e : RelSerializer.t) :
  newBuilder (Some k) (Some cl) (Some ca) (Some r) = OK b0 →
  rtc builderCall b0 b →
  (build b).2 = OK e →
  getCluster (getContext e) = cl
  ∧ getCatalog (getContext e) = ca
  ∧ getRegistry (getContext e) = r
  ∧ (0 < getOutputBufferSize (getContext e) ≤ MAX_BUFFER_SIZE)%Z
  ∧ (0 < outputStreamCapacity e ≤ MAX_BUFFER_SIZE)%Z.
Proof.
  intros [= <-] Hcalls (m & _ & ->)%build_OK.
  destruct (builderCalls_keep _ _ Hcalls) as (Hcl & Hca & Hr & _ & Hpos).
  unfold outputStreamCapacity, getCluster, getCatalog, getRegistry, getOutputBufferSize,
    getContext, builtContext. simpl in *.
  rewrite Hcl, Hca, Hr. change MAX_BUFFER_SIZE with 65536%Z in *.
  specialize (Hpos eq_refl). repeat split; try done; lia.
Qed.

(** ** How builder calls compose *)

Lemma withInjection_all (b : Builder.t) (l : list Injection) :
  Builder.injections (foldl withInjection b l) = Builder.injections b ++ l
  ∧ Builder.kryo (foldl withInjection b l) = Builder.kryo b
  ∧ Builder.cluster (foldl withInjection b l) = Builder.cluster b
  ∧ Builder.catalog (foldl withInjection b l) = Builder.catalog b
  ∧ Builder.registry (foldl withInjection b l) = Builder.registry b
  ∧ Builder.outputBufferSize (foldl withInjection b l) = Builder.outputBufferSize b.
Proof.
  revert b. induction l as [|i l IH]; intros b; simpl.
  - by rewrite app_nil_r.
  - destruct (IH (withInjection b i)) as (-> & -> & -> & -> & -> & ->).
    simpl. by rewrite <- app_assoc.
Qed.

(** The builder keeps every injection it is given, duplicates included, in
    the order of the calls; setting the buffer size before, between or
    after them makes no difference, and of several sizes set the last one
    counts. *)
Theorem builder_calls_compose (b : Builder.t) (before after : list Injection) (n m : Z) :
  (0 < n)%Z → (0 < m)%Z →
  ∃ b1 b2 b3,
    setOutputBufferSize (foldl withInjection b before) n = OK b1
    ∧ setOutputBufferSize (foldl withInjection b1 after) m = OK b2
    ∧ setOutputBufferSize b m = OK b3
    ∧ b2 = foldl withInjection b3 (before ++ after)
    ∧ Builder.injections b2 = Builder.injections b ++ before ++ after
    ∧ Builder.outputBufferSize b2 = m.
Proof.
  intros Hn Hm. unfold setOutputBufferSize, checkArgument.
  rewrite (proj2 (Z.gtb_lt _ _) Hn), (proj2 (Z.gtb_lt _ _) Hm). simpl.
  eexists _, _, _. split; [done|]. split; [done|]. split; [done|].
  set (b1 := Builder.mk _ _ _ _ _ n).
  destruct (withInjection_all b before) as (Hl & Hk & Hcl & Hca & Hr & _).
  destruct (withInjection_all b1 after) as (Hl1 & Hk1 & Hcl1 & Hca1 & Hr1 & _).
  destruct (withInjection_all (Builder.mk (Builder.injections b) (Builder.kryo b)
              (Builder.cluster b) (Builder.catalog b) (Builder.registry b) m)
              (before ++ after)) as (Hl3 & Hk3 & Hcl3 & Hca3 & Hr3 & Hn3).
  rewrite Hl1, Hk1, Hcl1, Hca1, Hr1. subst b1. simpl in *.
  rewrite Hl, Hk, Hcl, Hca, Hr, <- app_assoc.
  split; [|done].
  destruct (foldl withInjection _ (before ++ after)) as [l3 k3 cl3 ca3 r3 n3].
  simpl in *. by subst.
Qed.

(** ** What [build] does when it fails and when it returns *)

(** [build] throws exactly when [InjectionMapping.of] throws on the
    caller's injections followed by the three environment injections, and
    with the same exception: the null checks of the serializer's constructor
    never fire.  When it throws, the builder's Kryo instance has not been
    set up, but the three injections are already in the builder's list.
    When it returns, the Kryo instance of the builder is the one of the
    serializer, which is the builder's former instance after that
    serializer's [setup]. *)
Theorem build_outcomes (b : Builder.t) :
  (∀ err, (build b).2 = Err err ↔
          InjectionMapping_of (Builder.injections b ++ environmentInjections b) = Err err)
  ∧ (∀ err, (build b).2 = Err err →
            Builder.kryo (build b).1 = Builder.kryo b
            ∧ Builder.injections (build b).1
              = Builder.injections b ++ environmentInjections b)
  ∧ (∀ e, (build b).2 = OK e →
          Builder.kryo (build b).1 = RelSerializer.kryo e
          ∧ RelSerializer.kryo e = setup e (Builder.kryo b)
          ∧ InjectionMapping_of (Builder.injections b ++ environmentInjections b)
            = OK (RelSerializer.mapping e)
          ∧ getContext e = builtContext b).
Proof.
  split; [apply build_Err|]. split.
  - intros err Herr. split; [|apply build_injections].
    apply build_Err in Herr. rewrite <- injectPassedInstances_injections in Herr.
    unfold build. by rewrite Herr.
  - intros e He. pose proof He as (m & Hm & ->)%build_OK.
    split; [|by repeat split].
    rewrite <- injectPassedInstances_injections in Hm.
    unfold build. by rewrite Hm.
Qed.

Lemma mjoin_replicate_snoc {A} (n : nat) (l : list A) :
  mjoin (replicate n l) ++ l = mjoin (replicate (S n) l).
Proof.
  induction n as [|n IH]; simpl; [by rewrite app_nil_r|].
  simpl in IH. by rewrite <- app_assoc, IH.
Qed.

Lemma buildTimes_S (n : nat) (b : Builder.t) :
  buildTimes (S n) b = (build (buildTimes n b)).1.
Proof. reflexivity. Qed.

Lemma buildTimes_environmentInjections (n : nat) (b : Builder.t) :
  environmentInjections (buildTimes n b) = environmentInjections b.
Proof.
  induction n as [|n IH]; [done|].
  by rewrite buildTimes_S, build_environmentInjections.
Qed.

(** Every call of [build] adds the same three injections again: after [n]
    calls the builder holds the caller's injections followed by [n] copies
    of the three, [3 * n] entries more than before. *)
Theorem build_grows_by_three (n : nat) (b : Builder.t) :
  Builder.injections (buildTimes n b)
  = Builder.injections b ++ mjoin (replicate n (environmentInjections b))
  ∧ length (Builder.injections (buildTimes n b))
    = (length (Builder.injections b) + 3 * n)%nat.
Proof.
  assert (Hlist : Builder.injections (buildTimes n b)
                  = Builder.injections b ++ mjoin (replicate n (environmentInjections b))).
  { induction n as [|n IH]; [by rewrite app_nil_r|].
    rewrite buildTimes_S, build_injections, IH, buildTimes_environmentInjections.
    rewrite <- app_assoc. f_equal.
    apply mjoin_replicate_snoc. }
  split; [done|]. rewrite Hlist, length_app. f_equal.
  clear Hlist. generalize (eq_refl : length (environmentInjections b) = 3%nat).
  generalize (environmentInjections b). intros l Hl.
  induction n as [|n IH]; [done|].
  simpl. rewrite length_app, IH, Hl. lia.
Qed.

(** ** Buffer sizes at or above the cap *)

(** The outcome of [build] depends on the buffer size only through its
    minimum with the cap: every size at or above the cap gives the same
    serializer, the one a builder left at its default gives. *)
Theorem sizes_above_cap_coincide (b : Builder.t) (n : Z) :
  (MAX_BUFFER_SIZE ≤ n)%Z →
  Builder.outputBufferSize b = MAX_BUFFER_SIZE →
  ∃ b', setOutputBufferSize b n = OK b' ∧ (build b').2 = (build b).2.
Proof.
  intros Hn Hdefault. unfold setOutputBufferSize, checkArgument.
  change MAX_BUFFER_SIZE with 65536%Z in Hn.
  rewrite (proj2 (Z.gtb_lt n 0)) by lia. simpl. eexists. split; [done|].
  unfold build. simpl. destruct (InjectionMapping_of _) as [m|]; [|done]. simpl.
  rewrite Hdefault. change MAX_BUFFER_SIZE with 65536%Z. rewrite !Z.min_r by lia.
  done.
Qed.

(** ** What [setup] does to the Kryo instance *)

Lemma register_settings (entries : list (TypeId * Strategy)) (k : Kryo) :
  warnUnregisteredClasses (register entries k) = warnUnregisteredClasses k
  ∧ instantiatorStrategy (register entries k) = instantiatorStrategy k.
Proof.
  revert k. induction entries as [|[t s] entries IH]; intros k; [done|].
  change (register ((t, s) :: entries) k)
    with (register entries (addDefaultSerializer t s k)).
  by destruct (IH (addDefaultSerializer t s k)) as [-> ->].
Qed.

(** Whatever the Kryo instance was configured with, and whatever the
    registration helpers install, after [setup] the warnings for
    unregistered classes are off, the instantiator is the default one with
    the constructor-bypassing fallback, and the default factory is
    [makeSerializer] of this serializer: a factory installed before, by the
    caller or by the [setup] of another serializer on the same instance, is
    gone. *)
Theorem setup_overrides (this other : RelSerializer.t) (k : Kryo) :
  warnUnregisteredClasses (setup this k) = false
  ∧ instantiatorStrategy (setup this k)
    = DefaultInstantiatorStrategy (Some StdInstantiatorStrategy)
  ∧ defaultSerializer (setup this k)
    = makeSerializer this (StoragePluginSerializer (getRegistry (getContext this)))
  ∧ defaultSerializer (setup this (setup other k)) = defaultSerializer (setup this k)
  ∧ ∀ type, isAssignableFrom SqlOperator_class type = false →
            isAssignableFrom RelDataType_class type = false →
            isAssignableFrom StoragePlugin_class type = false →
            isAssignableFrom Writable_class type = false →
            defaultSerializer (setup this (setup other k)) type
            = InjectingSerializer type (RelSerializer.mapping this).
Proof.
  rewrite !setup_defaultSerializer, setup_as_register.
  destruct (register_settings (specialCases this)
              (setDefaultSerializer
                 (makeSerializer this
                    (StoragePluginSerializer (getRegistry (getContext this))))
                 (setInstantiatorStrategy
                    (DefaultInstantiatorStrategy (Some StdInstantiatorStrategy))
                    (setWarnUnregisteredClasses false k)))) as [-> ->].
  repeat split; try done. intros type. apply makeSerializer_fallback.
Qed.

(** ** Dispatch along the hierarchy *)

Lemma isAssignableFrom_subtype (base : TypeId) (sub super : Class) :
  subtypeOf sub super →
  isAssignableFrom base super = true → isAssignableFrom base sub = true.
Proof.
  intros [Hsuper Hsupers]. unfold isAssignableFrom.
  rewrite !orb_true_iff, !bool_decide_eq_true. intros [->|Hbase]; right; [done|].
  by apply Hsupers.
Qed.

(** A subtype is never dispatched to a later category than its supertype:
    the strategy [makeSerializer] gives a proper subtype comes no later in
    the order of the categories than the one it gives the supertype.  So
    every subtype of an operator class is written as an operator, and only
    a type in no category can have subtypes in any. *)
Theorem makeSerializer_inherited (this : RelSerializer.t) (r : StoragePluginRegistry)
    (sub super : Class) :
  subtypeOf sub super →
  (priority (makeSerializer this (StoragePluginSerializer r) sub)
   ≤ priority (makeSerializer this (StoragePluginSerializer r) super))%nat
  ∧ (makeSerializer this (StoragePluginSerializer r) super = SqlOperatorSerializer super →
     makeSerializer this (StoragePluginSerializer r) sub = SqlOperatorSerializer sub).
Proof.
  intros Hsub.
  pose proof (fun base => isAssignableFrom_subtype base _ _ Hsub) as Hinherit.
  unfold makeSerializer.
  destruct (isAssignableFrom SqlOperator_class super) eqn:Hop;
    [rewrite (Hinherit _ Hop); simpl; split; [lia|done]|].
  destruct (isAssignableFrom RelDataType_class super) eqn:Hdt;
    [rewrite (Hinherit _ Hdt); split; [|done];
     destruct (isAssignableFrom SqlOperator_class sub); simpl; lia|].
  destruct (isAssignableFrom StoragePlugin_class super) eqn:Hpl;
    [rewrite (Hinherit _ Hpl); split; [|done];
     destruct (isAssignableFrom SqlOperator_class sub),
       (isAssignableFrom RelDataType_class sub); simpl; lia|].
  destruct (isAssignableFrom Writable_class super) eqn:Hwr;
    [rewrite (Hinherit _ Hwr)|]; (split; [|done]);
    destruct (isAssignableFrom SqlOperator_class sub),
      (isAssignableFrom RelDataType_class sub),
      (isAssignableFrom StoragePlugin_class sub); simpl; try lia;
    destruct (isAssignableFrom Writable_class sub); simpl; lia.
Qed.

End Properties.

(** * The properties on the concrete engine *)

Lemma newBuilder_requires_environment_witness :
  ((None : option RelOptCluster) = None
   ∨ Some Scenario.catalog = None ∨ Some Scenario.registry = None)
  ∧ ∃ msg, newBuilder (Some Scenario.kryo) None (Some Scenario.catalog)
             (Some Scenario.registry)
           = Err (NullPointerException msg).
Proof.
  split; [by left|].
  apply (newBuilder_requires_environment (Some Scenario.kryo) None
           (Some Scenario.catalog) (Some Scenario.registry)).
  by left.
Defined.

Lemma build_rejects_shared_TypeId_witness :
  ∃ t, InjectionMapping_of (Builder.injections Scenario.builderWithDuplicate)
       = Err (AmbiguousInjection t)
       ∧ (build (H := Scenario.library) Scenario.builderWithDuplicate).2
         = Err (AmbiguousInjection t).
Proof.
  apply (build_rejects_shared_TypeId (H := Scenario.library)
           Scenario.builderWithDuplicate 0 1
           (mkInjection (cname Scenario.Session) Scenario.session)
           (mkInjection (cname Scenario.Session)
              (VObject Scenario.Session [VPrim 43]))).
  - lia.
  - reflexivity.
  - reflexivity.
  - reflexivity.
Defined.

Lemma serialize_deserialize_roundtrip_witness :
  envelopePrivate Scenario.engine
  ∧ payload_ok (H := Scenario.library) (RelSerializer.kryo Scenario.engine) Scenario.plan
  ∧ ∃ data,
      serialize Scenario.engine Scenario.plan = OK data
      ∧ deserialize (H := Scenario.library) Scenario.engine data
        = OK (withInjections (RelSerializer.kryo Scenario.engine) Scenario.plan)
      ∧ (instancesHeld (RelSerializer.kryo Scenario.engine) Scenario.plan →
         deserialize (H := Scenario.library) Scenario.engine data = OK Scenario.plan).
Proof.
  assert (Henvelope : envelopePrivate Scenario.engine).
  { exists (RelSerializer.mapping Scenario.engine). split; vm_compute; reflexivity. }
  assert (Hplan : payload_ok (H := Scenario.library)
                    (RelSerializer.kryo Scenario.engine) Scenario.plan).
  { vm_compute. repeat split. }
  split; [exact Henvelope|]. split; [exact Hplan|].
  exact (serialize_deserialize_roundtrip (H := Scenario.library)
           Scenario.engine Scenario.plan Henvelope Hplan).
Defined.

(** The scenario of the specification, computed: the environment reference
    comes back as [E1] and the child as DECIMAL(10, 2). *)
Example scenario_round_trip :
  (data ← serialize Scenario.engine Scenario.plan;
   deserialize (H := Scenario.library) Scenario.engine data)
  = OK (VObject Scenario.PlanNode
          [Scenario.E1; VDataType Scenario.BasicSqlType "DECIMAL" 10 2 []; VPrim 7]).
Proof. vm_compute. reflexivity. Qed.

Lemma missing_injection_fails_witness :
  writeClassAndObject (RelSerializer.kryo Scenario.engineWithSession) Scenario.session
  = OK [TType Scenario.Session; TTag INJECTED]
  ∧ serialize Scenario.engineWithSession Scenario.session
    = OK [TTag STRUCTURAL; TLen 1; TType Scenario.Session; TTag INJECTED]
  ∧ deserialize (H := Scenario.library) Scenario.engine
      [TTag STRUCTURAL; TLen 1; TType Scenario.Session; TTag INJECTED]
    = Err (ResolutionError (cname Scenario.Session))
  ∧ ∀ fuel rest,
      readClassAndObject (H := Scenario.library) (RelSerializer.kryo Scenario.engine)
        (S fuel) ([TType Scenario.Session; TTag INJECTED] ++ rest)
      = Err (ResolutionError (cname Scenario.Session)).
Proof.
  apply (missing_injection_fails (H := Scenario.library)
           Scenario.engineWithSession Scenario.engine Scenario.session Scenario.Session
           (RelSerializer.mapping Scenario.engineWithSession)
           (RelSerializer.mapping Scenario.engine)).
  - reflexivity.
  - vm_compute. reflexivity.
  - exists Scenario.session. vm_compute. reflexivity.
  - vm_compute. reflexivity.
  - vm_compute. reflexivity.
  - exists (RelSerializer.mapping Scenario.engineWithSession).
    split; vm_compute; reflexivity.
  - exists (RelSerializer.mapping Scenario.engine).
    split; vm_compute; reflexivity.
Defined.

Lemma build_injects_environment_witness :
  (∃ e, (build (H := Scenario.library) Scenario.builderWithSession).2 = OK e)
  ∧ (∃ t, (build (H := Scenario.library) Scenario.builderWithCluster).2
          = Err (AmbiguousInjection t)).
Proof.
  split.
  - apply (build_injects_environment (H := Scenario.library) Scenario.builderWithSession).
    + compute_done.
    + intros i Hi. apply list_elem_of_singleton in Hi as ->. compute_done.
  - apply (build_injects_environment (H := Scenario.library) Scenario.builderWithCluster)
      with (i := mkInjection RelOptCluster_class Scenario.E2).
    + apply list_elem_of_here.
    + apply list_elem_of_here.
Defined.

Lemma setOutputBufferSize_capped_witness :
  setOutputBufferSize Scenario.builder 0 = Err IllegalArgumentException
  ∧ (∃ b', setOutputBufferSize Scenario.builder 1000000 = OK b'
           ∧ isOK (build (H := Scenario.library) b').2
             = isOK (build (H := Scenario.library) Scenario.builder).2
           ∧ ∀ e, (build (H := Scenario.library) b').2 = OK e →
                  getOutputBufferSize (getContext e) = Z.min 1000000 MAX_BUFFER_SIZE
                  ∧ (outputStreamCapacity e ≤ MAX_BUFFER_SIZE)%Z)
  ∧ (∃ b' e, setOutputBufferSize Scenario.builder 1000000 = OK b'
             ∧ (build (H := Scenario.library) b').2 = OK e
             ∧ getOutputBufferSize (getContext e) = 65536)
  ∧ (∃ b' e, setOutputBufferSize Scenario.builder 4096 = OK b'
             ∧ (build (H := Scenario.library) b').2 = OK e
             ∧ getOutputBufferSize (getContext e) = 4096).
Proof.
  assert (NoDup (inj_type <$> Builder.injections Scenario.builder)) as Hnodup
    by compute_done.
  assert (∀ i, i ∈ Builder.injections Scenario.builder →
               inj_type i ∉ [RelOptCluster_class; CalciteCatalogReader_class;
                             StoragePluginRegistry_class]) as Hfree
    by (intros i Hi; by apply elem_of_nil in Hi).
  pose proof (setOutputBufferSize_capped (H := Scenario.library) Scenario.builder 0)
    as (_ & Hfail & _).
  pose proof (setOutputBufferSize_capped (H := Scenario.library) Scenario.builder 1000000)
    as (_ & _ & Hcap & Hreturns).
  pose proof (setOutputBufferSize_capped (H := Scenario.library) Scenario.builder 4096)
    as (_ & _ & _ & Hbelow).
  split; [apply Hfail; lia|]. split; [apply Hcap; lia|]. split.
  - destruct (Hreturns ltac:(lia) Hnodup Hfree)
      as (b' & e & Hset & _ & _ & Hbuild & _ & _ & _ & Hstored).
    exists b', e. split; [done|]. split; [done|]. apply Hstored. lia.
  - destruct (Hbelow ltac:(lia) Hnodup Hfree)
      as (b' & e & Hset & _ & _ & Hbuild & _ & _ & Hstored & _).
    exists b', e. split; [done|]. split; [done|]. apply Hstored. lia.
Defined.


Lemma makeSerializer_first_match_witness :
  makeSerializer Scenario.fresh (StoragePluginSerializer Scenario.registry)
    Scenario.WritableOperator
  = SqlOperatorSerializer Scenario.WritableOperator.
Proof.
  pose proof (makeSerializer_first_match Scenario.fresh
                (StoragePluginSerializer Scenario.registry) Scenario.WritableOperator)
    as (_ & Hwalk & _).
  rewrite Hwalk. reflexivity.
Defined.


Lemma build_not_idempotent_witness :
  ¬ NoDup (inj_type <$> Builder.injections
             (injectPassedInstances (build (H := Scenario.library) Scenario.builder).1)).
Proof.
  pose proof (build_not_idempotent (H := Scenario.library) Scenario.builder)
    as (_ & _ & _ & Hdup & _).
  exact Hdup.
Defined.

(** The same on the concrete builder, computed: the first [build] returns
    an engine, the second does not, and the list has grown by three
    entries each time. *)
Example scenario_second_build :
  isOK (build (H := Scenario.library) Scenario.builder).2 = true
  ∧ isOK (build (H := Scenario.library)
            (build (H := Scenario.library) Scenario.builder).1).2 = false
  ∧ inj_type <$> Builder.injections
      (build (H := Scenario.library) (build (H := Scenario.library) Scenario.builder).1).1
    = [ RelOptCluster_class; CalciteCatalogReader_class; StoragePluginRegistry_class;
        RelOptCluster_class; CalciteCatalogReader_class; StoragePluginRegistry_class ].
Proof. vm_compute. by repeat split. Qed.

(** A plan that references another object of the environment class comes
    back referencing the injected one. *)
Example scenario_foreign_cluster :
  (data ← serialize Scenario.engine Scenario.planWithForeignCluster;
   deserialize (H := Scenario.library) Scenario.engine data)
  = OK (VObject Scenario.PlanNode [Scenario.E1; VPrim 7]).
Proof. vm_compute. reflexivity. Qed.

(** A plan that holds the caller's session, written by the engine that
    injects it, is not read by the engine built without that injection. *)
Example scenario_missing_in_graph :
  ∃ data, serialize Scenario.engineWithSession Scenario.planWithSession = OK data
          ∧ deserialize (H := Scenario.library) Scenario.engine data
            = Err (ResolutionError (cname Scenario.Session)).
Proof.
  apply (missing_injection_fails_in_graph (H := Scenario.library)
           Scenario.engineWithSession Scenario.engine {[cname Scenario.Session]}).
  - exists (RelSerializer.mapping Scenario.engineWithSession).
    split; vm_compute; reflexivity.
  - apply (built_decodesWithout (H := Scenario.library) Scenario.builder
             (cname Scenario.Session) Scenario.session).
    + done.
    + repeat constructor.
    + apply map_Forall_empty.
    + vm_compute. reflexivity.
    + vm_compute. reflexivity.
  - vm_compute. repeat split.
  - vm_compute. reflexivity.
Qed.

(** * The further properties on the concrete engine *)

Lemma builder_calls_keep_state_witness :
  rtc (builderCall (H := Scenario.library)) Scenario.builder
      (build (H := Scenario.library) Scenario.builderWithSessionAndSize).1
  ∧ Builder.cluster (build (H := Scenario.library) Scenario.builderWithSessionAndSize).1
    = Builder.cluster Scenario.builder
  ∧ Builder.catalog (build (H := Scenario.library) Scenario.builderWithSessionAndSize).1
    = Builder.catalog Scenario.builder
  ∧ Builder.registry (build (H := Scenario.library) Scenario.builderWithSessionAndSize).1
    = Builder.registry Scenario.builder
  ∧ Builder.injections Scenario.builder
    `prefix_of` Builder.injections
                  (build (H := Scenario.library) Scenario.builderWithSessionAndSize).1
  ∧ ((0 < Builder.outputBufferSize Scenario.builder)%Z →
     (0 < Builder.outputBufferSize
            (build (H := Scenario.library) Scenario.builderWithSessionAndSize).1)%Z).
Proof.
  assert (Hcalls : rtc (builderCall (H := Scenario.library)) Scenario.builder
                     (build (H := Scenario.library) Scenario.builderWithSessionAndSize).1).
  { eapply rtc_l;
      [apply (call_withInjection (H := Scenario.library) Scenario.builder
                (Injection_of (cname Scenario.Session) Scenario.session))|].
    eapply rtc_l;
      [apply (call_setOutputBufferSize (H := Scenario.library) _
                Scenario.builderWithSessionAndSize 4096); reflexivity|].
    eapply rtc_l; [apply call_build|]. apply rtc_refl. }
  split; [exact Hcalls|].
  exact (builder_calls_keep_state (H := Scenario.library) _ _ Hcalls).
Defined.

Lemma built_context_bounds_witness :
  getCluster (getContext Scenario.engineWithSession) = Scenario.cluster
  ∧ getCatalog (getContext Scenario.engineWithSession) = Scenario.catalog
  ∧ getRegistry (getContext Scenario.engineWithSession) = Scenario.registry
  ∧ (0 < getOutputBufferSize (getContext Scenario.engineWithSession)
     ≤ MAX_BUFFER_SIZE)%Z
  ∧ (0 < outputStreamCapacity Scenario.engineWithSession ≤ MAX_BUFFER_SIZE)%Z.
Proof.
  apply (built_context_bounds (H := Scenario.library) Scenario.kryo Scenario.cluster
           Scenario.catalog Scenario.registry Scenario.builder
           Scenario.builderWithSession Scenario.engineWithSession).
  - reflexivity.
  - eapply rtc_l;
      [apply (call_withInjection (H := Scenario.library) Scenario.builder
                (Injection_of (cname Scenario.Session) Scenario.session))|].
    apply rtc_refl.
  - vm_compute. reflexivity.
Defined.

Lemma builder_calls_compose_witness :
  ∃ b1 b2 b3,
    setOutputBufferSize
      (foldl withInjection Scenario.builder
         [Injection_of (cname Scenario.Session) Scenario.session]) 10 = OK b1
    ∧ setOutputBufferSize
        (foldl withInjection b1 [Injection_of (cname Scenario.Session) (VPrim 2)]) 20
      = OK b2
    ∧ setOutputBufferSize Scenario.builder 20 = OK b3
    ∧ b2 = foldl withInjection b3
             ([Injection_of (cname Scenario.Session) Scenario.session]
              ++ [Injection_of (cname Scenario.Session) (VPrim 2)])
    ∧ Builder.injections b2
      = Builder.injections Scenario.builder
        ++ [Injection_of (cname Scenario.Session) Scenario.session]
        ++ [Injection_of (cname Scenario.Session) (VPrim 2)]
    ∧ Builder.outputBufferSize b2 = 20%Z.
Proof.
  apply (builder_calls_compose Scenario.builder
           [Injection_of (cname Scenario.Session) Scenario.session]
           [Injection_of (cname Scenario.Session) (VPrim 2)] 10 20); lia.
Defined.

Lemma sizes_above_cap_coincide_witness :
  ∃ b', setOutputBufferSize Scenario.builder 1000000 = OK b'
        ∧ (build (H := Scenario.library) b').2
          = (build (H := Scenario.library) Scenario.builder).2.
Proof.
  apply (sizes_above_cap_coincide (H := Scenario.library) Scenario.builder 1000000).
  - change MAX_BUFFER_SIZE with 65536%Z. lia.
  - reflexivity.
Defined.

Lemma makeSerializer_inherited_witness :
  (priority (makeSerializer Scenario.fresh (StoragePluginSerializer Scenario.registry)
               Scenario.SqlMonotonicBinaryOperator)
   ≤ priority (makeSerializer Scenario.fresh (StoragePluginSerializer Scenario.registry)
                 Scenario.SqlBinaryOperator))%nat
  ∧ (makeSerializer Scenario.fresh (StoragePluginSerializer Scenario.registry)
       Scenario.SqlBinaryOperator
     = SqlOperatorSerializer Scenario.SqlBinaryOperator →
     makeSerializer Scenario.fresh (StoragePluginSerializer Scenario.registry)
       Scenario.SqlMonotonicBinaryOperator
     = SqlOperatorSerializer Scenario.SqlMonotonicBinaryOperator).
Proof.
  apply (makeSerializer_inherited Scenario.fresh Scenario.registry
           Scenario.SqlMonotonicBinaryOperator Scenario.SqlBinaryOperator).
  split.
  - apply list_elem_of_here.
  - intros t Ht. apply list_elem_of_further. exact Ht.
Defined.

(** The fallback is not inherited: a plan node is in no category, a
    writable subclass of it is. *)
Example scenario_fallback_not_inherited :
  subtypeOf (mkClass "com.dremio.WritableScan" [cname Scenario.PlanNode; Writable_class])
            Scenario.PlanNode
  ∧ makeSerializer Scenario.fresh (StoragePluginSerializer Scenario.registry)
      Scenario.PlanNode
    = InjectingSerializer Scenario.PlanNode (mkMapping ∅)
  ∧ makeSerializer Scenario.fresh (StoragePluginSerializer Scenario.registry)
      (mkClass "com.dremio.WritableScan" [cname Scenario.PlanNode; Writable_class])
    = WritableSerializer.
Proof.
  split; [split; [apply list_elem_of_here|by intros t Ht%elem_of_nil]|].
  by split.
Qed.
